(** * prefect_gcp.credentials: the GcpCredentials block

    A shallow embedding of [src/prefect_gcp/credentials.py].  The block is a
    pydantic (v1) model with three validators, an initialisation hook and five
    methods that delegate to google-auth and to the Google Cloud client
    libraries.  Those libraries are not part of the repository: they appear
    here as an [Environment] of operations over an abstract world, and every
    theorem is stated for all environments. *)

From Stdlib Require Import Ascii String.
From stdpp Require Import base option list strings gmap pretty.

Open Scope string_scope.

(** ** Python values *)

(** [pathlib.Path].  Kept apart from [str]: a path defines neither [__bool__]
    nor [__len__], so every path is truthy, the empty one included. *)
Record Path := mkPath { path_str : string }.

(** The value of [service_account_info] once pydantic has coerced it: a
    [Dict[str, str]] (a JSON string is decoded to the same kind of mapping). *)
Abbreviation Info := (gmap string string).

(** Python's truth-value protocol ([if x:], [x or y], [x and y], [not x]). *)
Class Truthy (A : Type) := truthy : A -> bool.

#[export] Instance truthy_bool : Truthy bool := fun b => b.
#[export] Instance truthy_str : Truthy string :=
  fun s => match s with EmptyString => false | String _ _ => true end.
#[export] Instance truthy_path : Truthy Path := fun _ => true.
#[export] Instance truthy_dict : Truthy Info :=
  fun d => negb (bool_decide (d = ∅)).
(** [Optional[T]]: [None] is falsy, any other value answers for itself. *)
#[export] Instance truthy_optional {A} `{Truthy A} : Truthy (option A) :=
  fun o => match o with None => false | Some a => truthy a end.

(** [x or y] *)
Definition py_or {A} `{Truthy A} (x y : A) : A := if truthy x then x else y.

(** [x and y] *)
Definition py_and {A} `{Truthy A} (x y : A) : A := if truthy x then y else x.

(** [if o: then_(o) else: else_] on an optional value: the branch taken on a
    truthy value receives that value. *)
Definition if_truthy {A B} `{Truthy A} (o : option A) (then_ : A -> B) (else_ : B) : B :=
  match o with
  | Some a => if truthy a then then_ a else else_
  | None => else_
  end.

(** The dynamically typed values held by the [values] dict of a validator. *)
Inductive PyVal :=
| VNone
| VBool (b : bool)
| VStr (s : string)
| VPath (p : Path)
| VDict (d : Info).

#[export] Instance truthy_val : Truthy PyVal :=
  fun v => match v with
           | VNone => false
           | VBool b => truthy b
           | VStr s => truthy s
           | VPath p => truthy p
           | VDict d => truthy d
           end.

(** [v is not None] *)
Definition is_not_None (v : PyVal) : bool :=
  match v with VNone => false | _ => true end.

(** [values.get(key)]: [None] for a key that is absent. *)
Definition dict_get (values : gmap string PyVal) (key : string) : PyVal :=
  default VNone (values !! key).

Definition of_optional {A} (inj : A -> PyVal) (o : option A) : PyVal :=
  match o with Some a => inj a | None => VNone end.

Definition as_path (v : PyVal) : option Path :=
  match v with VPath p => Some p | _ => None end.
Definition as_dict (v : PyVal) : option Info :=
  match v with VDict d => Some d | _ => None end.
Definition as_str (v : PyVal) : option string :=
  match v with VStr s => Some s | _ => None end.
Definition as_bool (v : PyVal) : bool :=
  match v with VBool b => b | _ => false end.

(** ** Exceptions, results and the state-and-exception monad *)

Inductive PyExc :=
| ValueError (msg : string)
| NameError (name : string)
| ImportError (msg : string)
(** [pydantic.ValidationError]: the collected errors, each with the location
    it was raised for (a field name, or [__root__]). *)
| ValidationError (errors : list (string * string))
(** Any exception raised inside google-auth or a client library, by class. *)
| LibraryError (cls msg : string).

Inductive Res (A : Type) :=
| Ok (a : A)
| Raise (e : PyExc).
Arguments Ok {A} a.
Arguments Raise {A} e.

Definition M (S A : Type) : Type := S -> Res A * S.

Definition ret {S A} (a : A) : M S A := fun s => (Ok a, s).
Definition raise {S A} (e : PyExc) : M S A := fun s => (Raise e, s).
Definition bind {S A B} (m : M S A) (k : A -> M S B) : M S B :=
  fun s => match m s with
           | (Ok a, s') => k a s'
           | (Raise e, s') => (Raise e, s')
           end.

Declare Scope py_scope.
Delimit Scope py_scope with py.
Notation "x <- m ;; k" := (bind m (fun x => k))
  (at level 100, m at next level, right associativity) : py_scope.
Notation "m ;;; k" := (bind m (fun _ => k))
  (at level 100, right associativity) : py_scope.
Open Scope py_scope.

(** A result that needs no state (an attribute read), run inside [M]. *)
Definition lift_res {S A} (r : Res A) : M S A := fun s => (r, s).

(** Sequencing on results alone: an exception ends the sequence. *)
Definition res_bind {A B} (r : Res A) (k : A -> Res B) : Res B :=
  match r with
  | Ok a => k a
  | Raise exc => Raise exc
  end.

(** ** The libraries the module calls

    [World] is everything outside the block that a call can read or change:
    the file system, the process environment, the identity endpoint.  A
    client class is an [option]: the module imports each one under
    [try: ... except ModuleNotFoundError: pass], so when the package is not
    installed the name is simply never bound ([None]). *)
Record Environment := {
  World : Type;
  Credentials : Type;
  HttpRequest : Type;
  StorageClientObj : Type;
  BigQueryClientObj : Type;
  SecretManagerClientObj : Type;
  (** [Path.expanduser] and [Path.exists]: reads of the world, which can
      raise ([RuntimeError] for a home directory that cannot be determined,
      [OSError] for a path that cannot be examined) *)
  expanduser : Path -> World -> Res Path;
  path_exists : Path -> World -> Res bool;
  (** the names of the classes a class [cls] derives from, for the classes
      of the exceptions that the libraries raise *)
  bases : string -> list string;
  (** [Credentials.from_service_account_info(info, scopes=...)] *)
  from_service_account_info : Info -> list string -> World -> Res Credentials * World;
  (** [json.load] on the file opened at a path, as google-auth reads a key
      file *)
  json_load_file : Path -> World -> Res Info * World;
  (** [google.auth.default()], a pair of credentials and a project id *)
  google_auth_default : World -> Res (Credentials * option string) * World;
  (** [google.auth.transport.requests.Request()] *)
  Request : World -> Res HttpRequest * World;
  (** [credentials.refresh(request)]: updates the credentials object in
      place; the object after the call is returned. *)
  refresh : Credentials -> HttpRequest -> World -> Res Credentials * World;
  (** the attributes [credentials.project_id] and [credentials.token] *)
  project_id : Credentials -> Res (option string);
  token : Credentials -> option string;
  (** the client classes: credentials, project (and location) *)
  StorageClient :
    option (Credentials -> option string -> World -> Res StorageClientObj * World);
  BigQueryClient :
    option (Credentials -> option string -> option string ->
            World -> Res BigQueryClientObj * World);
  SecretManagerServiceClient :
    option (Credentials -> World -> Res SecretManagerClientObj * World)
}.

(** [Credentials.from_service_account_file(file, scopes=...)].  In
    google-auth the two class methods differ only in where the mapping comes
    from: this one opens the file, decodes it with [json.load], and from
    there builds the credentials from the decoded mapping exactly as
    [from_service_account_info] does. *)
Definition from_service_account_file (E : Environment) (file : Path)
    (scopes : list string) (w : World E) : Res (Credentials E) * World E :=
  match json_load_file E file w with
  | (Ok info, w') => from_service_account_info E info scopes w'
  | (Raise exc, w') => (Raise exc, w')
  end.

(** The classes an exception is an instance of, its own first.  The builtin
    classes the module raises itself have their builtin ancestry (pydantic's
    [ValidationError] is a [ValueError]); a library exception has the
    ancestry the environment gives its class. *)
Definition exception_mro (E : Environment) (exc : PyExc) : list string :=
  match exc with
  | ValueError _ => ["ValueError"; "Exception"; "BaseException"]
  | NameError _ => ["NameError"; "Exception"; "BaseException"]
  | ImportError _ => ["ImportError"; "Exception"; "BaseException"]
  | ValidationError _ =>
      ["ValidationError"; "ValueError"; "Exception"; "BaseException"]
  | LibraryError cls _ => cls :: bases E cls
  end.

(** [isinstance(exc, cls)], which is also what [except cls] tests. *)
Definition isinstance (E : Environment) (exc : PyExc) (cls : string) : bool :=
  bool_decide (cls ∈ exception_mro E exc).

(** The exceptions pydantic 1 catches around a validator and collects:
    [except (ValueError, TypeError, AssertionError)].  Any other exception
    leaves the constructor as it is. *)
Definition collected (E : Environment) (exc : PyExc) : bool :=
  isinstance E exc "ValueError" || isinstance E exc "TypeError"
  || isinstance E exc "AssertionError".

(** ** The block *)

Record GcpCredentials := {
  service_account_file : option Path;
  service_account_info : option Info;
  project : option string;
  infer_project : bool
}.

(** [self.project = value] *)
Definition with_project (self : GcpCredentials) (value : option string) : GcpCredentials :=
  {| service_account_file := service_account_file self;
     service_account_info := service_account_info self;
     project := value;
     infer_project := infer_project self |}.

Definition only_one_source_msg : string :=
  "Only one of service_account_info or service_account_file " ++
  "can be specified at once".
Definition cannot_infer_msg : string :=
  "Unable to infer project with a project already set".
Definition invalid_path_msg : string :=
  "The provided path to the service account is invalid".

(** The message of [_raise_help_msg], an f-string over [key]. *)
Definition help_msg (key : string) : string :=
  "To use prefect_gcp." ++ key ++ ", install prefect-gcp with the " ++
  "'" ++ key ++ "' extra: `pip install 'prefect_gcp[" ++ key ++ "]'`".

Definition cloud_platform_scope : string :=
  "https://www.googleapis.com/auth/cloud-platform".

(** A name of the module's global scope: [NameError] when it was never bound. *)
Definition global_name {S A} (name : string) (binding : option A) : M S A :=
  match binding with
  | Some v => ret v
  | None => raise (NameError name)
  end.

(** The decorator [_raise_help_msg(key)]: an exception leaving the wrapped
    function that [except NameError] catches (a [NameError] or an instance of
    a subclass, such as [UnboundLocalError]) becomes an [ImportError] with
    the install hint; any other outcome passes through. *)
Definition _raise_help_msg {S A} (E : Environment) (key : string) (func : M S A)
  : M S A :=
  fun s => match func s with
           | (Raise exc, s') =>
               if isinstance E exc "NameError"
               then (Raise (ImportError (help_msg key)), s')
               else (Raise exc, s')
           | r => r
           end.

(** [run_sync_in_worker_thread(f, *args)], awaited: the caller resumes with
    the outcome of [f], so for the caller it is the call itself. *)
Definition run_sync_in_worker_thread {S A} (call : M S A) : M S A := call.

Section Block.
Context (E : Environment).

(** The state a method runs in: the block itself and the world. *)
Definition St : Type := GcpCredentials * World E.

Definition get_self : M St GcpCredentials := fun s => (Ok (fst s), s).
Definition set_project (value : option string) : M St unit :=
  fun s => (Ok tt, (with_project (fst s) value, snd s)).
(** The outcome of a library call, seen from a method of [self]. *)
Definition in_world {A} (self : GcpCredentials) (r : Res A * World E) : Res A * St :=
  (fst r, (self, snd r)).
(** A library call: it acts on the world and cannot reach the block. *)
Definition call {A} (op : World E -> Res A * World E) : M St A :=
  fun s => in_world (fst s) (op (snd s)).
(** A computation that leaves every field of the block as it found it. *)
Definition preserves_block {A} (m : M St A) : Prop :=
  forall s, fst (snd (m s)) = fst s.
(** Two outcomes that agree on everything but the block: the same value
    returned or exception raised, and the same world left behind. *)
Definition same_outcome {A} (r1 r2 : Res A * St) : Prop :=
  fst r1 = fst r2 /\ snd (snd r1) = snd (snd r2).

(** *** Validators *)

Definition _provide_one_service_account_source (values : gmap string PyVal)
  : Res (gmap string PyVal) :=
  let both_service_account :=
    is_not_None (dict_get values "service_account_info")
    && is_not_None (dict_get values "service_account_file") in
  if both_service_account then Raise (ValueError only_one_source_msg)
  else Ok values.

Definition _cannot_infer_project_with_specified_project (values : gmap string PyVal)
  : Res (gmap string PyVal) :=
  if truthy (py_and (dict_get values "infer_project") (dict_get values "project"))
  then Raise (ValueError cannot_infer_msg)
  else Ok values.

Definition _check_service_account_file (file : option Path) (w : World E)
  : Res (option Path) :=
  if_truthy file
    (fun file =>
       res_bind (expanduser E file w) (fun service_account_file =>
       res_bind (path_exists E service_account_file w) (fun found =>
       if negb found
       then Raise (ValueError invalid_path_msg)
       else Ok (Some service_account_file))))
    (Ok file).

(** *** Methods *)

Definition get_credentials_from_service_account : M St (Credentials E) :=
  self <- get_self;;
  if_truthy (service_account_info self)
    (fun info => call (from_service_account_info E info [cloud_platform_scope]))
    (if_truthy (service_account_file self)
       (fun file => call (from_service_account_file E file [cloud_platform_scope]))
       (found <- call (google_auth_default E);;
        ret (fst found))).

Definition block_initialization : M St unit :=
  self <- get_self;;
  if truthy (infer_project self) then
    credentials <- get_credentials_from_service_account;;
    value <- lift_res (project_id E credentials);;
    set_project value
  else ret tt.

Definition get_access_token : M St (option string) :=
  request <- call (Request E);;
  credentials <- get_credentials_from_service_account;;
  credentials <- run_sync_in_worker_thread (call (refresh E credentials request));;
  ret (token E credentials).

Definition get_cloud_storage_client (project_arg : option string)
  : M St (StorageClientObj E) :=
  _raise_help_msg E "cloud_storage"
    (credentials <- get_credentials_from_service_account;;
     self <- get_self;;
     let project_arg := py_or project_arg (project self) in
     cls <- global_name "StorageClient" (StorageClient E);;
     call (cls credentials project_arg)).

Definition get_bigquery_client (project_arg location : option string)
  : M St (BigQueryClientObj E) :=
  _raise_help_msg E "bigquery"
    (credentials <- get_credentials_from_service_account;;
     self <- get_self;;
     let project_arg := py_or project_arg (project self) in
     cls <- global_name "BigQueryClient" (BigQueryClient E);;
     call (cls credentials project_arg location)).

Definition get_secret_manager_client : M St (SecretManagerClientObj E) :=
  _raise_help_msg E "secret_manager"
    (credentials <- get_credentials_from_service_account;;
     cls <- global_name "SecretManagerServiceClient" (SecretManagerServiceClient E);;
     call (cls credentials)).

End Block.

(** ** Construction

    [GcpCredentials(...)] runs pydantic's [validate_model] and then, in
    prefect's [Block.__init__], the hook [block_initialization].  The class
    is written against pydantic 1 ([validator], and [root_validator] with
    neither [pre] nor [skip_on_failure]), whose [validate_model] works as
    follows.  The fields are validated in the order of their declaration; a
    validated value is stored in [values] under the name of its field, and
    a field whose validator raises is left out of [values], its error kept.
    Then each root validator is called on [values], whether or not a field
    failed, and its error, if it raises, is kept under [__root__].  With any
    error kept the constructor raises one [ValidationError] that carries
    them all.  This is why the validators of the class read their inputs
    with [values.get].  Only a [ValueError], [TypeError] or [AssertionError]
    is kept in this way: any other exception leaving a validator ends the
    validation there and leaves the constructor as it is.

    The keyword arguments are taken after pydantic's type coercion; a keyword
    left out and one passed as [None] both read as [None] here (the file
    validator returns [None] unchanged, which is also the field's default). *)
Record Config := {
  cfg_service_account_file : option Path;
  cfg_service_account_info : option Info;
  cfg_project : option string;
  cfg_infer_project : bool
}.

(** [str(exc)] *)
Definition exc_message (e : PyExc) : string :=
  match e with
  | ValueError msg | ImportError msg | LibraryError _ msg => msg
  | NameError name => "name '" ++ name ++ "' is not defined"
  | ValidationError _ => "validation error"
  end.

(** The location pydantic reports for an error of a root validator. *)
Definition ROOT_KEY : string := "__root__".

(** The two accumulators of [validate_model]: the values validated so far
    and the errors collected so far. *)
Definition Validation : Type := gmap string PyVal * list (string * string).

Definition map_res {A B} (f : A -> B) (r : Res A) : Res B :=
  match r with Ok a => Ok (f a) | Raise e => Raise e end.

(** The block built from validated [values]. *)
Definition of_values (values : gmap string PyVal) : GcpCredentials :=
  {| service_account_file := as_path (dict_get values "service_account_file");
     service_account_info := as_dict (dict_get values "service_account_info");
     project := as_str (dict_get values "project");
     infer_project := as_bool (dict_get values "infer_project") |}.

Section Construction.
Context (E : Environment).

(** One field: its validated value is stored under its name; when its
    validator raises an exception that pydantic collects, the error is
    recorded and the name stays out of [values]; any other exception ends
    the validation. *)
Definition validate_field (name : string) (outcome : Res PyVal) (acc : Validation)
  : Res Validation :=
  match outcome with
  | Ok v => Ok (<[name := v]> (fst acc), snd acc)
  | Raise exc =>
      if collected E exc
      then Ok (fst acc, (snd acc ++ [(name, exc_message exc)])%list)
      else Raise exc
  end.

(** One root validator (declared without [skip_on_failure], so it runs
    whatever the fields did): it sees [values]; when it raises an exception
    that pydantic collects, the error is recorded and [values] is kept. *)
Definition validate_root (validator : gmap string PyVal -> Res (gmap string PyVal))
    (acc : Validation) : Res Validation :=
  match validator (fst acc) with
  | Ok values => Ok (values, snd acc)
  | Raise exc =>
      if collected E exc
      then Ok (fst acc, (snd acc ++ [(ROOT_KEY, exc_message exc)])%list)
      else Raise exc
  end.

(** Fields in the order the class declares them, then the root validators
    in the order the class declares them. *)
Definition validate_model (cfg : Config) (w : World E) : Res Validation :=
  res_bind (validate_field "service_account_file"
              (map_res (of_optional VPath)
                 (_check_service_account_file E (cfg_service_account_file cfg) w))
              (∅, [])) (fun acc =>
  res_bind (validate_field "service_account_info"
              (Ok (of_optional VDict (cfg_service_account_info cfg))) acc)
    (fun acc =>
  res_bind (validate_field "project"
              (Ok (of_optional VStr (cfg_project cfg))) acc) (fun acc =>
  res_bind (validate_field "infer_project"
              (Ok (VBool (cfg_infer_project cfg))) acc) (fun acc =>
  res_bind (validate_root _provide_one_service_account_source acc) (fun acc =>
  validate_root _cannot_infer_project_with_specified_project acc))))).

(** [GcpCredentials(...)] on the keywords [cfg]: the exception that ended
    validation, or a [ValidationError] carrying every collected error, or
    the validated block after [block_initialization]. *)
Definition construct (cfg : Config) : M (World E) GcpCredentials :=
  fun w =>
    match validate_model cfg w with
    | Raise exc => (Raise exc, w)
    | Ok (values, []) =>
        match block_initialization E (of_values values, w) with
        | (Ok _, (self, w')) => (Ok self, w')
        | (Raise exc, (_, w')) => (Raise exc, w')
        end
    | Ok (_, errors) => (Raise (ValidationError errors), w)
    end.

End Construction.

(** ** A concrete environment

    A small world to run the block in: a home directory, key files by path,
    optional ambient credentials, and an identity endpoint that numbers the
    tokens it issues. *)
Module Demo.

Record DemoCredentials := {
  dc_account : string;
  dc_scopes : list string;
  dc_project : option string;
  dc_token : option string
}.

Record DemoWorld := {
  home : string;
  directories : list string;
  files : gmap string Info;
  ambient : option (DemoCredentials * option string);
  issued : nat
}.

Record DemoClient := {
  client_credentials : DemoCredentials;
  client_project : option string;
  client_location : option string
}.

(** [~] and [~/...] expand to the home directory; [~user/...] names a user
    this machine does not know; anything else is left alone. *)
Definition demo_expanduser (p : Path) (w : DemoWorld) : Res Path :=
  match path_str p with
  | String "~"%char EmptyString => Ok (mkPath (home w))
  | String "~"%char (String "/"%char rest) => Ok (mkPath (home w ++ "/" ++ rest))
  | String "~"%char _ =>
      Raise (LibraryError "RuntimeError" "Could not determine home directory.")
  | _ => Ok p
  end.

(** A path exists when it names a file or a directory. *)
Definition demo_exists (p : Path) (w : DemoWorld) : Res bool :=
  Ok (bool_decide (is_Some (files w !! path_str p))
      || bool_decide (path_str p ∈ directories w)).

(** The builtin ancestry of the exceptions raised in this world. *)
Definition demo_bases (cls : string) : list string :=
  if bool_decide (cls = "UnboundLocalError")
  then ["NameError"; "Exception"; "BaseException"]
  else if bool_decide (cls = "FileNotFoundError")
  then ["OSError"; "Exception"; "BaseException"]
  else if bool_decide (cls = "DefaultCredentialsError")
  then ["GoogleAuthError"; "Exception"; "BaseException"]
  else ["Exception"; "BaseException"].

(** Credentials from a mapping that has the fields the library requires
    ([client_email], [token_uri], [private_key]).  This world does not parse
    the private key: any value stands for a well-formed one. *)
Definition demo_from_info (info : Info) (scopes : list string) (w : DemoWorld)
  : Res DemoCredentials * DemoWorld :=
  match info !! "client_email", info !! "token_uri", info !! "private_key" with
  | Some account, Some _, Some _ =>
      (Ok {| dc_account := account; dc_scopes := scopes;
             dc_project := info !! "project_id"; dc_token := None |}, w)
  | _, _, _ =>
      (Raise (ValueError "Service account info was not in the expected format"), w)
  end.

Definition demo_json_load (file : Path) (w : DemoWorld) : Res Info * DemoWorld :=
  match files w !! path_str file with
  | Some info => (Ok info, w)
  | None => (Raise (LibraryError "FileNotFoundError" (path_str file)), w)
  end.

Definition demo_default (w : DemoWorld)
  : Res (DemoCredentials * option string) * DemoWorld :=
  match ambient w with
  | Some found => (Ok found, w)
  | None =>
      (Raise (LibraryError "DefaultCredentialsError"
                "Could not automatically determine credentials"), w)
  end.

Definition demo_refresh (c : DemoCredentials) (_ : unit) (w : DemoWorld)
  : Res DemoCredentials * DemoWorld :=
  (Ok {| dc_account := dc_account c; dc_scopes := dc_scopes c;
         dc_project := dc_project c;
         dc_token := Some ("ya29." ++ pretty (issued w)) |},
   {| home := home w; directories := directories w; files := files w;
      ambient := ambient w; issued := S (issued w) |}).

Definition demo_client (c : DemoCredentials) (p l : option string) (w : DemoWorld)
  : Res DemoClient * DemoWorld :=
  (Ok {| client_credentials := c; client_project := p; client_location := l |}, w).

(** The flags say which client packages are installed. *)
Definition demo_env (storage bigquery secretmanager : bool) : Environment :=
  {| World := DemoWorld;
     Credentials := DemoCredentials;
     HttpRequest := unit;
     StorageClientObj := DemoClient;
     BigQueryClientObj := DemoClient;
     SecretManagerClientObj := DemoClient;
     expanduser := demo_expanduser;
     path_exists := demo_exists;
     bases := demo_bases;
     from_service_account_info := demo_from_info;
     json_load_file := demo_json_load;
     google_auth_default := demo_default;
     Request := fun w => (Ok tt, w);
     refresh := demo_refresh;
     project_id := fun c => Ok (dc_project c);
     token := dc_token;
     StorageClient :=
       if storage then Some (fun c p => demo_client c p None) else None;
     BigQueryClient :=
       if bigquery then Some demo_client else None;
     SecretManagerServiceClient :=
       if secretmanager then Some (fun c => demo_client c None None) else None |}.

Definition all_installed : Environment := demo_env true true true.
Definition none_installed : Environment := demo_env false false false.

(** Every client package installed, and every client class raising [exc]
    when it is called. *)
Definition raising_clients (exc : PyExc) : Environment :=
  {| World := DemoWorld;
     Credentials := DemoCredentials;
     HttpRequest := unit;
     StorageClientObj := DemoClient;
     BigQueryClientObj := DemoClient;
     SecretManagerClientObj := DemoClient;
     expanduser := demo_expanduser;
     path_exists := demo_exists;
     bases := demo_bases;
     from_service_account_info := demo_from_info;
     json_load_file := demo_json_load;
     google_auth_default := demo_default;
     Request := fun w => (Ok tt, w);
     refresh := demo_refresh;
     project_id := fun c => Ok (dc_project c);
     token := dc_token;
     StorageClient := Some (fun _ _ w => (Raise exc, w));
     BigQueryClient := Some (fun _ _ _ w => (Raise exc, w));
     SecretManagerServiceClient := Some (fun _ w => (Raise exc, w)) |}.

Definition demo_key : Info :=
  <["type" := "service_account"]>
  (<["project_id" := "key-project"]>
  (<["private_key_id" := "private_key_id"]>
  (<["private_key" := "private_key"]>
  (<["client_email" := "svc@demo.iam.gserviceaccount.com"]>
  (<["client_id" := "client_id"]>
  (<["token_uri" := "https://oauth2.googleapis.com/token"]> ∅)))))).

Definition gcloud_login : DemoCredentials :=
  {| dc_account := "user@example.com"; dc_scopes := [];
     dc_project := Some "ambient-project"; dc_token := None |}.

(** A machine with one key file under the home directory and a gcloud
    login, and one with neither. *)
Definition workstation : DemoWorld :=
  {| home := "/home/dev";
     directories := ["/"; "/home"; "/home/dev"];
     files := <["/home/dev/key.json" := demo_key]> ∅;
     ambient := Some (gcloud_login, Some "ambient-project");
     issued := 0 |}.

Definition bare_machine : DemoWorld :=
  {| home := "/root"; directories := ["/"; "/root"]; files := ∅;
     ambient := None; issued := 0 |}.

(** Blocks as they stand after construction. *)
Definition block (file : option Path) (info : option Info)
    (project : option string) : GcpCredentials :=
  {| service_account_file := file; service_account_info := info;
     project := project; infer_project := false |}.

Definition inline_block : GcpCredentials := block None (Some demo_key) None.
Definition file_block : GcpCredentials :=
  block (Some (mkPath "/home/dev/key.json")) None None.
Definition ambient_block : GcpCredentials := block None None None.
Definition empty_info_block : GcpCredentials := block None (Some ∅) None.
Definition project_block : GcpCredentials :=
  block None (Some demo_key) (Some "configured-project").
Definition inferring_block : GcpCredentials :=
  {| service_account_file := None; service_account_info := Some demo_key;
     project := None; infer_project := true |}.

(** The credentials [demo_key] yields under the cloud-platform scope. *)
Definition key_credentials : DemoCredentials :=
  {| dc_account := "svc@demo.iam.gserviceaccount.com";
     dc_scopes := [cloud_platform_scope];
     dc_project := Some "key-project"; dc_token := None |}.

Definition with_token (c : DemoCredentials) (t : string) : DemoCredentials :=
  {| dc_account := dc_account c; dc_scopes := dc_scopes c;
     dc_project := dc_project c; dc_token := Some t |}.

Definition after_refreshes (w : DemoWorld) (n : nat) : DemoWorld :=
  {| home := home w; directories := directories w; files := files w;
     ambient := ambient w; issued := n |}.

(** Keyword arguments for construction. *)
Definition both_sources_present : Config :=
  {| cfg_service_account_file := Some (mkPath "~/key.json");
     cfg_service_account_info := Some demo_key;
     cfg_project := None; cfg_infer_project := false |}.

Definition both_sources_file_missing : Config :=
  {| cfg_service_account_file := Some (mkPath "~/absent.json");
     cfg_service_account_info := Some demo_key;
     cfg_project := None; cfg_infer_project := false |}.

Definition infer_with_project : Config :=
  {| cfg_service_account_file := None; cfg_service_account_info := None;
     cfg_project := Some "my-project"; cfg_infer_project := true |}.

Definition infer_with_empty_project : Config :=
  {| cfg_service_account_file := None; cfg_service_account_info := None;
     cfg_project := Some ""; cfg_infer_project := true |}.




Definition file_present : Config :=
  {| cfg_service_account_file := Some (mkPath "~/key.json");
     cfg_service_account_info := None;
     cfg_project := Some "my-project"; cfg_infer_project := false |}.

Definition infer_from_file : Config :=
  {| cfg_service_account_file := Some (mkPath "~/key.json");
     cfg_service_account_info := None;
     cfg_project := Some ""; cfg_infer_project := true |}.

Definition two_mistakes : Config :=
  {| cfg_service_account_file := Some (mkPath "~/absent.json");
     cfg_service_account_info := None;
     cfg_project := Some "my-project"; cfg_infer_project := true |}.

(** The blocks the first two of these are constructed to. *)
Definition file_present_block : GcpCredentials :=
  block (Some (mkPath "/home/dev/key.json")) None (Some "my-project").

Definition inferred_block : GcpCredentials :=
  {| service_account_file := Some (mkPath "/home/dev/key.json");
     service_account_info := None;
     project := Some "key-project"; infer_project := true |}.

End Demo.


(** * Properties *)

(** ** The monad *)

Lemma bind_ok {S A B} (m : M S A) (k : A -> M S B) s a s' :
  m s = (Ok a, s') -> bind m k s = k a s'.
Proof. unfold bind. intros ->. reflexivity. Qed.

Lemma bind_raise {S A B} (m : M S A) (k : A -> M S B) s e s' :
  m s = (Raise e, s') -> bind m k s = (Raise e, s').
Proof. unfold bind. intros ->. reflexivity. Qed.

Lemma truthy_dict_true (d : Info) : d ≠ ∅ -> truthy d = true.
Proof.
  intros Hd. unfold truthy, truthy_dict.
  rewrite bool_decide_eq_false_2; done.
Qed.

Lemma truthy_dict_empty : truthy (∅ : Info) = false.
Proof. reflexivity. Qed.

Lemma truthy_str_true (s : string) : s ≠ "" -> truthy s = true.
Proof. destruct s; [congruence | reflexivity]. Qed.

Section Frame.
Context (E : Environment).

Lemma preserves_ret {A} (a : A) : preserves_block E (ret a).
Proof. intros s. reflexivity. Qed.

Lemma preserves_raise {A} e : preserves_block E (raise (A := A) e).
Proof. intros s. reflexivity. Qed.

Lemma preserves_get_self : preserves_block E (get_self E).
Proof. intros s. reflexivity. Qed.

Lemma preserves_call {A} (op : World E -> Res A * World E) :
  preserves_block E (call E op).
Proof. intros s. reflexivity. Qed.

Lemma preserves_lift_res {A} (r : Res A) : preserves_block E (lift_res r).
Proof. intros s. reflexivity. Qed.

Lemma preserves_bind {A B} (m : M (St E) A) (k : A -> M (St E) B) :
  preserves_block E m -> (forall a, preserves_block E (k a)) ->
  preserves_block E (bind m k).
Proof.
  intros Hm Hk s. unfold bind. specialize (Hm s).
  destruct (m s) as [[a|e] s1]; simpl in *.
  - rewrite Hk. exact Hm.
  - exact Hm.
Qed.

Lemma preserves_global_name {A} name (binding : option A) :
  preserves_block E (global_name name binding).
Proof. destruct binding; intros s; reflexivity. Qed.

Lemma preserves_help_msg {A} key (func : M (St E) A) :
  preserves_block E func -> preserves_block E (_raise_help_msg E key func).
Proof.
  intros Hf s. unfold _raise_help_msg. specialize (Hf s).
  destruct (func s) as [[a|exc] s1]; [exact Hf|].
  destruct (isinstance E exc "NameError"); exact Hf.
Qed.

Lemma preserves_if_truthy {A B} `{Truthy A} (o : option A)
    (then_ : A -> M (St E) B) (else_ : M (St E) B) :
  (forall a, preserves_block E (then_ a)) -> preserves_block E else_ ->
  preserves_block E (if_truthy o then_ else_).
Proof.
  intros Ht He. unfold if_truthy. destruct o as [a|]; [destruct (truthy a)|]; auto.
Qed.

Create HintDb frame discriminated.
#[local] Hint Resolve preserves_ret preserves_raise preserves_get_self preserves_call
  preserves_lift_res preserves_global_name : frame.

Ltac frame :=
  repeat first
    [ apply preserves_help_msg
    | apply preserves_bind; [| intros ?]
    | apply preserves_if_truthy; [intros ? |]
    | solve [auto with frame] ].

Lemma preserves_get_credentials :
  preserves_block E (get_credentials_from_service_account E).
Proof. unfold get_credentials_from_service_account. frame. Qed.

#[local] Hint Resolve preserves_get_credentials : frame.

Lemma preserves_get_access_token : preserves_block E (get_access_token E).
Proof. unfold get_access_token, run_sync_in_worker_thread. frame. Qed.

Lemma preserves_storage project_arg :
  preserves_block E (get_cloud_storage_client E project_arg).
Proof. unfold get_cloud_storage_client. frame. Qed.

Lemma preserves_bigquery project_arg location :
  preserves_block E (get_bigquery_client E project_arg location).
Proof. unfold get_bigquery_client. frame. Qed.

Lemma preserves_secret_manager :
  preserves_block E (get_secret_manager_client E).
Proof. unfold get_secret_manager_client. frame. Qed.

(** Credential resolution, one branch at a time. *)
Lemma resolve_from_info self w info :
  service_account_info self = Some info -> info ≠ ∅ ->
  get_credentials_from_service_account E (self, w) =
  in_world E self (from_service_account_info E info [cloud_platform_scope] w).
Proof.
  intros Hi Hne. unfold get_credentials_from_service_account, bind, get_self.
  cbn [fst snd]. rewrite Hi. unfold if_truthy at 1.
  rewrite (truthy_dict_true _ Hne). reflexivity.
Qed.

Lemma resolve_skips_info self w :
  service_account_info self = None \/ service_account_info self = Some ∅ ->
  get_credentials_from_service_account E (self, w) =
  if_truthy (service_account_file self)
    (fun file => call E (from_service_account_file E file [cloud_platform_scope]))
    (found <- call E (google_auth_default E);; ret (fst found)) (self, w).
Proof.
  intros [Hi|Hi]; unfold get_credentials_from_service_account, bind, get_self;
    cbn [fst snd]; rewrite Hi; reflexivity.
Qed.

Lemma resolve_from_file self w file :
  service_account_info self = None \/ service_account_info self = Some ∅ ->
  service_account_file self = Some file ->
  get_credentials_from_service_account E (self, w) =
  in_world E self (from_service_account_file E file [cloud_platform_scope] w).
Proof.
  intros Hi Hf. rewrite (resolve_skips_info _ _ Hi), Hf. reflexivity.
Qed.

Lemma resolve_from_default self w :
  service_account_info self = None \/ service_account_info self = Some ∅ ->
  service_account_file self = None ->
  get_credentials_from_service_account E (self, w) =
  in_world E self (map_res fst (fst (google_auth_default E w)),
                   snd (google_auth_default E w)).
Proof.
  intros Hi Hf. rewrite (resolve_skips_info _ _ Hi), Hf.
  unfold if_truthy, bind, call, in_world. cbn [fst snd].
  destruct (google_auth_default E w) as [[found|e] w']; reflexivity.
Qed.

(** C1 (as amended): credential resolution is first match wins, where a
    match is a truthy field.  A non-empty [service_account_info] is handed
    to [from_service_account_info] with the cloud-platform scope; otherwise
    a [service_account_file] is handed to [from_service_account_file] with
    the same scope; otherwise [google.auth.default()] is called and only
    the credentials of the pair it returns are kept. *)
Theorem resolution_order (self : GcpCredentials) (w : World E) :
  (forall info, service_account_info self = Some info -> info ≠ ∅ ->
     get_credentials_from_service_account E (self, w) =
     in_world E self (from_service_account_info E info [cloud_platform_scope] w))
  /\ (forall file,
        service_account_info self = None \/ service_account_info self = Some ∅ ->
        service_account_file self = Some file ->
        get_credentials_from_service_account E (self, w) =
        in_world E self (from_service_account_file E file [cloud_platform_scope] w))
  /\ (service_account_info self = None \/ service_account_info self = Some ∅ ->
      service_account_file self = None ->
      get_credentials_from_service_account E (self, w) =
      in_world E self (map_res fst (fst (google_auth_default E w)),
                       snd (google_auth_default E w))).
Proof.
  split; [|split].
  - intros info. apply resolve_from_info.
  - intros file. apply resolve_from_file.
  - apply resolve_from_default.
Qed.


End Frame.

Section Methods.
Context (E : Environment).

(** C9: no method touches a field of the block, and initialisation touches
    at most [project].  Credential resolution, the token minter and the
    three client factories all finish with the block they started with,
    whatever they return or raise.  [block_initialization] with
    [infer_project] false does nothing at all; with [infer_project] true it
    resolves credentials and, when that and the read of their [project_id]
    succeed, stores that project id in [project], every other field staying
    as it was; when either raises, the block is unchanged. *)
Theorem fields_are_stable (s : St E) :
  fst (snd (get_credentials_from_service_account E s)) = fst s
  /\ fst (snd (get_access_token E s)) = fst s
  /\ (forall project_arg,
        fst (snd (get_cloud_storage_client E project_arg s)) = fst s)
  /\ (forall project_arg location,
        fst (snd (get_bigquery_client E project_arg location s)) = fst s)
  /\ fst (snd (get_secret_manager_client E s)) = fst s
  /\ (infer_project (fst s) = false -> block_initialization E s = (Ok tt, s))
  /\ (infer_project (fst s) = true ->
      block_initialization E s =
      match get_credentials_from_service_account E s with
      | (Ok credentials, s') =>
          match project_id E credentials with
          | Ok value => (Ok tt, (with_project (fst s) value, snd s'))
          | Raise exc => (Raise exc, (fst s, snd s'))
          end
      | (Raise exc, s') => (Raise exc, (fst s, snd s'))
      end).
Proof.
  repeat split.
  - apply preserves_get_credentials.
  - apply preserves_get_access_token.
  - intros. apply preserves_storage.
  - intros. apply preserves_bigquery.
  - apply preserves_secret_manager.
  - intros Hf. unfold block_initialization, bind, get_self. cbn [fst snd].
    rewrite Hf. destruct s. reflexivity.
  - intros Ht. unfold block_initialization, bind, get_self. cbn [fst snd].
    rewrite Ht. cbn [truthy truthy_bool].
    pose proof (preserves_get_credentials E s) as Hp.
    destruct (get_credentials_from_service_account E s) as [[c|e] [self' w']];
      cbn [fst snd] in *; subst self'; [|reflexivity].
    unfold lift_res, set_project. destruct (project_id E c); reflexivity.
Qed.

Lemma call_ok {A} (op : World E -> Res A * World E) self w a w' :
  op w = (Ok a, w') -> call E op (self, w) = (Ok a, (self, w')).
Proof. unfold call, in_world. cbn [fst snd]. intros ->. reflexivity. Qed.

(** C5: the token minter caches nothing.  Take two calls in a row on the
    same block.  Each one opens its own transport request, resolves
    credentials again, refreshes those credentials against the endpoint in
    the world as it then is, and returns the token the refreshed
    credentials carry.  So when the endpoint issues a different token at
    the second refresh, the second call returns a different string. *)
Theorem access_token_is_fresh (self : GcpCredentials) (w0 : World E)
    (rq1 : HttpRequest E) (w1 : World E) (c1 : Credentials E) (w2 : World E)
    (c1' : Credentials E) (w3 : World E)
    (rq2 : HttpRequest E) (w4 : World E) (c2 : Credentials E) (w5 : World E)
    (c2' : Credentials E) (w6 : World E) :
  Request E w0 = (Ok rq1, w1) ->
  get_credentials_from_service_account E (self, w1) = (Ok c1, (self, w2)) ->
  refresh E c1 rq1 w2 = (Ok c1', w3) ->
  Request E w3 = (Ok rq2, w4) ->
  get_credentials_from_service_account E (self, w4) = (Ok c2, (self, w5)) ->
  refresh E c2 rq2 w5 = (Ok c2', w6) ->
  get_access_token E (self, w0) = (Ok (token E c1'), (self, w3))
  /\ get_access_token E (self, w3) = (Ok (token E c2'), (self, w6))
  /\ (token E c1' ≠ token E c2' ->
      fst (get_access_token E (self, w0)) ≠ fst (get_access_token E (self, w3))).
Proof.
  intros Hq1 Hc1 Hr1 Hq2 Hc2 Hr2.
  assert (H1 : get_access_token E (self, w0) = (Ok (token E c1'), (self, w3))).
  { unfold get_access_token, run_sync_in_worker_thread.
    rewrite (bind_ok _ _ _ _ _ (call_ok _ self _ _ _ Hq1)).
    rewrite (bind_ok _ _ _ _ _ Hc1).
    rewrite (bind_ok _ _ _ _ _ (call_ok _ self _ _ _ Hr1)). reflexivity. }
  assert (H2 : get_access_token E (self, w3) = (Ok (token E c2'), (self, w6))).
  { unfold get_access_token, run_sync_in_worker_thread.
    rewrite (bind_ok _ _ _ _ _ (call_ok _ self _ _ _ Hq2)).
    rewrite (bind_ok _ _ _ _ _ Hc2).
    rewrite (bind_ok _ _ _ _ _ (call_ok _ self _ _ _ Hr2)). reflexivity. }
  split; [exact H1|]. split; [exact H2|].
  rewrite H1, H2. cbn [fst]. congruence.
Qed.

(** *** The client factories *)

Lemma help_msg_bind_ok {A B} key (m : M (St E) A) (k : A -> M (St E) B) s a s' :
  m s = (Ok a, s') ->
  _raise_help_msg E key (bind m k) s = _raise_help_msg E key (k a) s'.
Proof. intros Hm. unfold _raise_help_msg. rewrite (bind_ok _ _ _ _ _ Hm). reflexivity. Qed.

Lemma storage_client_returns self w c w' cls project_arg client wf :
  get_credentials_from_service_account E (self, w) = (Ok c, (self, w')) ->
  StorageClient E = Some cls ->
  cls c (py_or project_arg (project self)) w' = (Ok client, wf) ->
  get_cloud_storage_client E project_arg (self, w) = (Ok client, (self, wf)).
Proof.
  intros Hc Hcls Hnew. unfold get_cloud_storage_client.
  rewrite (help_msg_bind_ok _ _ _ _ _ _ Hc), Hcls.
  unfold _raise_help_msg, bind, get_self, global_name, ret.
  cbn [fst snd]. rewrite (call_ok _ self _ _ _ Hnew). reflexivity.
Qed.

Lemma bigquery_client_returns self w c w' cls project_arg location client wf :
  get_credentials_from_service_account E (self, w) = (Ok c, (self, w')) ->
  BigQueryClient E = Some cls ->
  cls c (py_or project_arg (project self)) location w' = (Ok client, wf) ->
  get_bigquery_client E project_arg location (self, w) = (Ok client, (self, wf)).
Proof.
  intros Hc Hcls Hnew. unfold get_bigquery_client.
  rewrite (help_msg_bind_ok _ _ _ _ _ _ Hc), Hcls.
  unfold _raise_help_msg, bind, get_self, global_name, ret.
  cbn [fst snd]. rewrite (call_ok _ self _ _ _ Hnew). reflexivity.
Qed.

Lemma secret_manager_client_returns self w c w' cls client wf :
  get_credentials_from_service_account E (self, w) = (Ok c, (self, w')) ->
  SecretManagerServiceClient E = Some cls ->
  cls c w' = (Ok client, wf) ->
  get_secret_manager_client E (self, w) = (Ok client, (self, wf)).
Proof.
  intros Hc Hcls Hnew. unfold get_secret_manager_client.
  rewrite (help_msg_bind_ok _ _ _ _ _ _ Hc), Hcls.
  unfold _raise_help_msg, bind, global_name, ret.
  rewrite (call_ok _ self _ _ _ Hnew). reflexivity.
Qed.

Lemma py_or_explicit (p : string) (configured : option string) :
  p ≠ "" -> py_or (Some p) configured = Some p.
Proof. intros Hp. unfold py_or. cbn. rewrite (truthy_str_true _ Hp). reflexivity. Qed.

Lemma py_or_fallback (project_arg configured : option string) :
  project_arg = None \/ project_arg = Some "" ->
  py_or project_arg configured = configured.
Proof. intros [->| ->]; reflexivity. Qed.

(** C6 (as amended): once credentials have been resolved, a factory whose
    client package is not installed raises [ImportError], and the message
    names the extra of that factory: [cloud_storage], [bigquery] or
    [secret_manager]. *)
Theorem missing_package_named (self : GcpCredentials) (w w' : World E)
    (c : Credentials E) :
  get_credentials_from_service_account E (self, w) = (Ok c, (self, w')) ->
  (StorageClient E = None -> forall project_arg,
     get_cloud_storage_client E project_arg (self, w) =
     (Raise (ImportError
        ("To use prefect_gcp.cloud_storage, install prefect-gcp with the " ++
         "'cloud_storage' extra: `pip install 'prefect_gcp[cloud_storage]'`")),
      (self, w')))
  /\ (BigQueryClient E = None -> forall project_arg location,
     get_bigquery_client E project_arg location (self, w) =
     (Raise (ImportError
        ("To use prefect_gcp.bigquery, install prefect-gcp with the " ++
         "'bigquery' extra: `pip install 'prefect_gcp[bigquery]'`")),
      (self, w')))
  /\ (SecretManagerServiceClient E = None ->
     get_secret_manager_client E (self, w) =
     (Raise (ImportError
        ("To use prefect_gcp.secret_manager, install prefect-gcp with the " ++
         "'secret_manager' extra: `pip install 'prefect_gcp[secret_manager]'`")),
      (self, w'))).
Proof.
  intros Hc. split; [|split].
  - intros Hcls project_arg. unfold get_cloud_storage_client.
    rewrite (help_msg_bind_ok _ _ _ _ _ _ Hc), Hcls. reflexivity.
  - intros Hcls project_arg location. unfold get_bigquery_client.
    rewrite (help_msg_bind_ok _ _ _ _ _ _ Hc), Hcls. reflexivity.
  - intros Hcls. unfold get_secret_manager_client.
    rewrite (help_msg_bind_ok _ _ _ _ _ _ Hc), Hcls. reflexivity.
Qed.

(** C7 (as amended): the storage and bigquery factories hand the client
    class the explicit project argument when it is a non-empty string, and
    the block's [project] when the argument is [None] or the empty string;
    the client they return is the one the class built for that project.
    The secret-manager factory takes no project and builds its client from
    the credentials alone. *)
Theorem client_project_selection (self : GcpCredentials) (w w' : World E)
    (c : Credentials E) :
  get_credentials_from_service_account E (self, w) = (Ok c, (self, w')) ->
  (forall cls p client wf, StorageClient E = Some cls -> p ≠ "" ->
     cls c (Some p) w' = (Ok client, wf) ->
     get_cloud_storage_client E (Some p) (self, w) = (Ok client, (self, wf)))
  /\ (forall cls project_arg client wf, StorageClient E = Some cls ->
     project_arg = None \/ project_arg = Some "" ->
     cls c (project self) w' = (Ok client, wf) ->
     get_cloud_storage_client E project_arg (self, w) = (Ok client, (self, wf)))
  /\ (forall cls p location client wf, BigQueryClient E = Some cls -> p ≠ "" ->
     cls c (Some p) location w' = (Ok client, wf) ->
     get_bigquery_client E (Some p) location (self, w) = (Ok client, (self, wf)))
  /\ (forall cls project_arg location client wf, BigQueryClient E = Some cls ->
     project_arg = None \/ project_arg = Some "" ->
     cls c (project self) location w' = (Ok client, wf) ->
     get_bigquery_client E project_arg location (self, w) = (Ok client, (self, wf)))
  /\ (forall cls client wf, SecretManagerServiceClient E = Some cls ->
     cls c w' = (Ok client, wf) ->
     get_secret_manager_client E (self, w) = (Ok client, (self, wf))).
Proof.
  intros Hc. repeat split.
  - intros cls p client wf Hcls Hp Hnew.
    apply (storage_client_returns self w c w' cls); auto.
    rewrite (py_or_explicit _ _ Hp). exact Hnew.
  - intros cls project_arg client wf Hcls Harg Hnew.
    apply (storage_client_returns self w c w' cls); auto.
    rewrite (py_or_fallback _ _ Harg). exact Hnew.
  - intros cls p location client wf Hcls Hp Hnew.
    apply (bigquery_client_returns self w c w' cls); auto.
    rewrite (py_or_explicit _ _ Hp). exact Hnew.
  - intros cls project_arg location client wf Hcls Harg Hnew.
    apply (bigquery_client_returns self w c w' cls); auto.
    rewrite (py_or_fallback _ _ Harg). exact Hnew.
  - intros cls client wf Hcls Hnew.
    apply (secret_manager_client_returns self w c w' cls); auto.
Qed.

(** C10: an empty string given as the project argument does not override
    the block's project.  The storage and bigquery factories choose with
    [project or self.project], the empty string is falsy, so the client
    class receives [self.project] and the client returned is the one built
    for it. *)
Theorem empty_project_argument_falls_back (self : GcpCredentials)
    (w w' : World E) (c : Credentials E) :
  get_credentials_from_service_account E (self, w) = (Ok c, (self, w')) ->
  (forall cls client wf, StorageClient E = Some cls ->
     cls c (project self) w' = (Ok client, wf) ->
     get_cloud_storage_client E (Some "") (self, w) = (Ok client, (self, wf)))
  /\ (forall cls location client wf, BigQueryClient E = Some cls ->
     cls c (project self) location w' = (Ok client, wf) ->
     get_bigquery_client E (Some "") location (self, w) = (Ok client, (self, wf))).
Proof.
  intros Hc. split.
  - intros cls client wf Hcls Hnew.
    apply (storage_client_returns self w c w' cls); auto.
  - intros cls location client wf Hcls Hnew.
    apply (bigquery_client_returns self w c w' cls); auto.
Qed.

End Methods.

Section Validation.
Context (E : Environment).

Lemma check_file_none w : _check_service_account_file E None w = Ok None.
Proof. reflexivity. Qed.

Lemma check_file_some file w :
  _check_service_account_file E (Some file) w =
  res_bind (expanduser E file w) (fun p =>
  res_bind (path_exists E p w) (fun found =>
  if negb found then Raise (ValueError invalid_path_msg) else Ok (Some p))).
Proof. reflexivity. Qed.

Lemma check_file_found file w p :
  expanduser E file w = Ok p -> path_exists E p w = Ok true ->
  _check_service_account_file E (Some file) w = Ok (Some p).
Proof. intros Hx Hp. rewrite check_file_some, Hx. cbn. rewrite Hp. reflexivity. Qed.

Lemma check_file_absent file w p :
  expanduser E file w = Ok p -> path_exists E p w = Ok false ->
  _check_service_account_file E (Some file) w = Raise (ValueError invalid_path_msg).
Proof. intros Hx Hp. rewrite check_file_some, Hx. cbn. rewrite Hp. reflexivity. Qed.

Lemma check_file_ok_inv file w v :
  _check_service_account_file E (Some file) w = Ok v ->
  exists p, v = Some p /\ expanduser E file w = Ok p /\ path_exists E p w = Ok true.
Proof.
  rewrite check_file_some.
  destruct (expanduser E file w) as [p|exc] eqn:Hx; [|discriminate].
  cbn. destruct (path_exists E p w) as [[|]|exc] eqn:Hp; cbn; try discriminate.
  intros [= <-]. exists p. auto.
Qed.

(** What the file check raised came from the check itself (the path does not
    exist) or from the library. *)
Lemma check_file_raise_inv file w exc :
  _check_service_account_file E (Some file) w = Raise exc ->
  expanduser E file w = Raise exc
  \/ (exists p, expanduser E file w = Ok p /\ path_exists E p w = Raise exc)
  \/ (exists p, expanduser E file w = Ok p /\ path_exists E p w = Ok false
                /\ exc = ValueError invalid_path_msg).
Proof.
  rewrite check_file_some. destruct (expanduser E file w) as [p|exc'] eqn:Hx.
  - cbn. destruct (path_exists E p w) as [[|]|exc''] eqn:Hp; cbn;
      try discriminate.
    + intros [= <-]. right. right. exists p. auto.
    + intros [= <-]. right. left. exists p. auto.
  - cbn. intros [= <-]. left. reflexivity.
Qed.

Lemma collected_value_error msg : collected E (ValueError msg) = true.
Proof. reflexivity. Qed.

(** Reading the four fields back from [values]. *)
Lemma get_infer_project (m : gmap string PyVal) vi vp vb :
  dict_get (<["infer_project":=vb]>
              (<["project":=vp]> (<["service_account_info":=vi]> m)))
    "infer_project" = vb.
Proof. unfold dict_get. rewrite lookup_insert_eq. reflexivity. Qed.

Lemma get_project (m : gmap string PyVal) vi vp vb :
  dict_get (<["infer_project":=vb]>
              (<["project":=vp]> (<["service_account_info":=vi]> m)))
    "project" = vp.
Proof.
  unfold dict_get. rewrite lookup_insert_ne by discriminate.
  rewrite lookup_insert_eq. reflexivity.
Qed.

Lemma get_info (m : gmap string PyVal) vi vp vb :
  dict_get (<["infer_project":=vb]>
              (<["project":=vp]> (<["service_account_info":=vi]> m)))
    "service_account_info" = vi.
Proof.
  unfold dict_get. rewrite !lookup_insert_ne by discriminate.
  rewrite lookup_insert_eq. reflexivity.
Qed.

Lemma get_file (m : gmap string PyVal) vi vp vb :
  dict_get (<["infer_project":=vb]>
              (<["project":=vp]> (<["service_account_info":=vi]> m)))
    "service_account_file" = dict_get m "service_account_file".
Proof. unfold dict_get. rewrite !lookup_insert_ne by discriminate. reflexivity. Qed.

Lemma get_file_stored (v : PyVal) :
  dict_get (<["service_account_file":=v]> ∅) "service_account_file" = v.
Proof. unfold dict_get. rewrite lookup_insert_eq. reflexivity. Qed.

Lemma get_file_absent : dict_get ∅ "service_account_file" = VNone.
Proof. reflexivity. Qed.

(** Validation once the file check has returned: every later step is
    collected, so validation ends with the values of the four fields, the
    conflict of the sources and the conflict of the project. *)
Lemma validate_model_checked cfg w v :
  _check_service_account_file E (cfg_service_account_file cfg) w = Ok v ->
  exists values,
    validate_model E cfg w =
      Ok (values,
          ((match v, cfg_service_account_info cfg with
            | Some _, Some _ => [(ROOT_KEY, only_one_source_msg)]
            | _, _ => []
            end) ++
           (if cfg_infer_project cfg && truthy (cfg_project cfg)
            then [(ROOT_KEY, cannot_infer_msg)] else []))%list)
    /\ of_values values =
        {| service_account_file := v;
           service_account_info := cfg_service_account_info cfg;
           project := cfg_project cfg;
           infer_project := cfg_infer_project cfg |}.
Proof.
  intros Hc. unfold validate_model. rewrite Hc.
  cbn [map_res validate_field res_bind fst snd].
  unfold validate_root, _provide_one_service_account_source,
    _cannot_infer_project_with_specified_project.
  cbn [fst snd]. rewrite get_info, get_file.
  destruct v as [p|], (cfg_service_account_info cfg) as [info|];
    cbn [of_optional is_not_None andb res_bind fst snd];
    rewrite ?get_file_stored, ?get_file_absent;
    cbn [is_not_None andb res_bind fst snd];
    rewrite ?collected_value_error; cbn [res_bind fst snd];
    rewrite get_infer_project, get_project;
    destruct (cfg_infer_project cfg), (cfg_project cfg) as [[|a q]|];
    cbn [of_optional py_and truthy truthy_val truthy_bool truthy_str
         truthy_optional andb];
    rewrite ?collected_value_error;
    (eexists; split; [reflexivity|]);
    unfold of_values;
    rewrite get_infer_project, get_project, get_info, get_file,
      ?get_file_stored, ?get_file_absent; reflexivity.
Qed.

(** Validation when the file check raised an exception that is collected:
    the file is missing from [values], so no conflict of sources is seen. *)
Lemma validate_model_collected cfg w exc :
  _check_service_account_file E (cfg_service_account_file cfg) w = Raise exc ->
  collected E exc = true ->
  exists values,
    validate_model E cfg w =
      Ok (values,
          (("service_account_file", exc_message exc) ::
           (if cfg_infer_project cfg && truthy (cfg_project cfg)
            then [(ROOT_KEY, cannot_infer_msg)] else []))%list).
Proof.
  intros Hc Hcol. unfold validate_model. rewrite Hc.
  cbn [map_res validate_field]. rewrite Hcol.
  cbn [res_bind validate_field fst snd app].
  unfold validate_root, _provide_one_service_account_source,
    _cannot_infer_project_with_specified_project.
  cbn [fst snd]. rewrite get_file, get_file_absent.
  rewrite andb_false_r. cbn [res_bind fst snd].
  rewrite get_infer_project, get_project.
  destruct (cfg_infer_project cfg), (cfg_project cfg) as [[|a q]|];
    cbn [of_optional py_and truthy truthy_val truthy_bool truthy_str
         truthy_optional andb];
    rewrite ?collected_value_error; eexists; reflexivity.
Qed.

(** Validation when the file check raised anything else: it ends there. *)
Lemma validate_model_aborted cfg w exc :
  _check_service_account_file E (cfg_service_account_file cfg) w = Raise exc ->
  collected E exc = false ->
  validate_model E cfg w = Raise exc.
Proof.
  intros Hc Hcol. unfold validate_model. rewrite Hc.
  cbn [map_res validate_field]. rewrite Hcol. reflexivity.
Qed.

Lemma construct_rejects cfg w values errors :
  validate_model E cfg w = Ok (values, errors) -> errors ≠ [] ->
  construct E cfg w = (Raise (ValidationError errors), w).
Proof.
  intros Hv Hne. unfold construct. rewrite Hv.
  destruct errors; [done | reflexivity].
Qed.

Lemma construct_aborts cfg w exc :
  validate_model E cfg w = Raise exc -> construct E cfg w = (Raise exc, w).
Proof. intros Hv. unfold construct. rewrite Hv. reflexivity. Qed.

Lemma construct_accepts cfg w self w' :
  construct E cfg w = (Ok self, w') ->
  exists values,
    validate_model E cfg w = Ok (values, [])
    /\ self = fst (snd (block_initialization E (of_values values, w))).
Proof.
  unfold construct.
  destruct (validate_model E cfg w) as [[values [|err errors]]|exc];
    try discriminate.
  destruct (block_initialization E (of_values values, w))
    as [[u|e] [self1 w1]] eqn:Hb; [|discriminate].
  intros [= <- <-]. exists values. rewrite Hb. split; reflexivity.
Qed.

(** Whatever the file check raises, no block results and the world stays. *)
Lemma construct_fails_on_check cfg w exc :
  _check_service_account_file E (cfg_service_account_file cfg) w = Raise exc ->
  exists exc', construct E cfg w = (Raise exc', w).
Proof.
  intros Hc. destruct (collected E exc) eqn:Hcol.
  - destruct (validate_model_collected _ _ _ Hc Hcol) as [values Hv].
    eexists. apply (construct_rejects _ _ _ _ Hv). discriminate.
  - eexists. apply construct_aborts. apply validate_model_aborted; eassumption.
Qed.

Lemma block_initialization_keeps_file s :
  service_account_file (fst (snd (block_initialization E s))) =
  service_account_file (fst s).
Proof.
  unfold block_initialization, bind, get_self. cbn [fst snd].
  destruct (truthy (infer_project (fst s))); [|reflexivity].
  pose proof (preserves_get_credentials E s) as Hp.
  destruct (get_credentials_from_service_account E s) as [[c|e] [self' w']];
    cbn [fst snd] in *; subst self'; [|reflexivity].
  unfold lift_res, set_project. destruct (project_id E c); reflexivity.
Qed.

(** C2 (as amended): a configuration with both [service_account_file] and
    [service_account_info] is never constructed: construction raises and
    leaves the world as it was.  When the file's path expands and exists, the
    validation error reports the conflict of the two sources; when the path
    expands and does not exist, the validation error reports the invalid
    path, and the conflict is not reported.  (When the expansion or the
    existence test itself raises, construction still fails, by the first
    part.) *)
Theorem both_sources_rejected (cfg : Config) (w : World E)
    (file : Path) (info : Info) :
  cfg_service_account_file cfg = Some file ->
  cfg_service_account_info cfg = Some info ->
  (exists exc, construct E cfg w = (Raise exc, w))
  /\ (forall p, expanduser E file w = Ok p -> path_exists E p w = Ok true ->
      exists errors,
        construct E cfg w = (Raise (ValidationError errors), w)
        /\ (ROOT_KEY, only_one_source_msg) ∈ errors)
  /\ (forall p, expanduser E file w = Ok p -> path_exists E p w = Ok false ->
      exists errors,
        construct E cfg w = (Raise (ValidationError errors), w)
        /\ ("service_account_file", invalid_path_msg) ∈ errors
        /\ (ROOT_KEY, only_one_source_msg) ∉ errors).
Proof.
  intros Hf Hi.
  assert (Hfound : forall p, expanduser E file w = Ok p ->
            path_exists E p w = Ok true ->
            exists errors,
              construct E cfg w = (Raise (ValidationError errors), w)
              /\ (ROOT_KEY, only_one_source_msg) ∈ errors).
  { intros p Hx Hp.
    destruct (validate_model_checked cfg w (Some p)) as (values & Hv & _).
    { rewrite Hf. apply check_file_found; assumption. }
    rewrite Hi in Hv. eexists. split.
    - apply (construct_rejects _ _ _ _ Hv). discriminate.
    - apply list_elem_of_here. }
  split; [|split; [exact Hfound|]].
  - destruct (_check_service_account_file E (cfg_service_account_file cfg) w)
      as [v|exc] eqn:Hc.
    + rewrite Hf in Hc. destruct (check_file_ok_inv _ _ _ Hc) as (p & _ & Hx & Hp).
      destruct (Hfound p Hx Hp) as (errors & Hr & _). eexists. exact Hr.
    + apply (construct_fails_on_check _ _ _ Hc).
  - intros p Hx Hp.
    destruct (validate_model_collected cfg w (ValueError invalid_path_msg))
      as (values & Hv).
    { rewrite Hf. apply (check_file_absent _ _ p); assumption. }
    { reflexivity. }
    eexists. split; [|split].
    + apply (construct_rejects _ _ _ _ Hv). discriminate.
    + apply list_elem_of_here.
    + apply not_elem_of_cons. split; [discriminate|].
      destruct (_ && _);
        repeat (apply not_elem_of_cons; split; [discriminate|]);
        apply not_elem_of_nil.
Qed.

(** C3 (as amended): a configuration with [infer_project] true and
    [project] a non-empty string is never constructed: construction raises
    and leaves the world as it was.  Unless the check of
    [service_account_file] ends validation with an exception that is not
    collected, what is raised is a validation error that reports the
    conflict. *)
Theorem infer_with_project_rejected (cfg : Config) (w : World E) (p : string) :
  cfg_infer_project cfg = true ->
  cfg_project cfg = Some p ->
  p ≠ "" ->
  (exists exc, construct E cfg w = (Raise exc, w))
  /\ ((forall exc,
         _check_service_account_file E (cfg_service_account_file cfg) w = Raise exc ->
         collected E exc = true) ->
      exists errors,
        construct E cfg w = (Raise (ValidationError errors), w)
        /\ (ROOT_KEY, cannot_infer_msg) ∈ errors).
Proof.
  intros Hb Hp Hne.
  assert (Ht : cfg_infer_project cfg && truthy (cfg_project cfg) = true).
  { rewrite Hb, Hp. cbn. apply truthy_str_true. exact Hne. }
  destruct (_check_service_account_file E (cfg_service_account_file cfg) w)
    as [v|exc] eqn:Hc.
  - destruct (validate_model_checked cfg w v Hc) as (values & Hv & _).
    rewrite Ht in Hv.
    assert (Hr : exists errors,
              construct E cfg w = (Raise (ValidationError errors), w)
              /\ (ROOT_KEY, cannot_infer_msg) ∈ errors).
    { eexists. split.
      - apply (construct_rejects _ _ _ _ Hv).
        intros Hnil. apply app_eq_nil in Hnil as [_ Hnil]. discriminate.
      - apply elem_of_app. right. apply list_elem_of_here. }
    split; [|intros _; exact Hr].
    destruct Hr as (errors & Hr & _). eexists. exact Hr.
  - split; [apply (construct_fails_on_check _ _ _ Hc)|].
    intros Hcol. specialize (Hcol exc eq_refl).
    destruct (validate_model_collected cfg w exc Hc Hcol) as (values & Hv).
    rewrite Ht in Hv. eexists. split.
    + apply (construct_rejects _ _ _ _ Hv). discriminate.
    + apply list_elem_of_further, list_elem_of_here.
Qed.


End Validation.

(** ** The block at work in the concrete environment *)

(** The demo key has fields. *)
Lemma demo_key_nonempty : Demo.demo_key ≠ ∅.
Proof.
  intros H. apply (f_equal (fun m : Info => m !! "project_id")) in H.
  vm_compute in H. discriminate H.
Qed.

(** The three branches of resolution on the workstation: an inline key, a
    key file, and the gcloud login when the block names neither. *)
Lemma resolution_order_witness :
  get_credentials_from_service_account Demo.all_installed
    (Demo.inline_block, Demo.workstation)
  = (Ok Demo.key_credentials, (Demo.inline_block, Demo.workstation))
  /\ get_credentials_from_service_account Demo.all_installed
       (Demo.file_block, Demo.workstation)
     = (Ok Demo.key_credentials, (Demo.file_block, Demo.workstation))
  /\ get_credentials_from_service_account Demo.all_installed
       (Demo.ambient_block, Demo.workstation)
     = (Ok Demo.gcloud_login, (Demo.ambient_block, Demo.workstation)).
Proof.
  pose proof (resolution_order Demo.all_installed Demo.inline_block Demo.workstation)
    as [Hinfo _].
  pose proof (resolution_order Demo.all_installed Demo.file_block Demo.workstation)
    as [_ [Hfile _]].
  pose proof (resolution_order Demo.all_installed Demo.ambient_block Demo.workstation)
    as [_ [_ Hdefault]].
  split; [|split].
  - refine (eq_trans (Hinfo Demo.demo_key eq_refl demo_key_nonempty) _).
    vm_compute. reflexivity.
  - refine (eq_trans (Hfile (mkPath "/home/dev/key.json") (or_introl eq_refl) eq_refl) _).
    vm_compute. reflexivity.
  - refine (eq_trans (Hdefault (or_introl eq_refl) eq_refl) _).
    vm_compute. reflexivity.
Defined.

(** C1 as stated fails: an empty mapping is a [service_account_info] that is
    present (not [None]), yet resolution does not build credentials from it.
    It is falsy, so the block falls through to the ambient credentials,
    where building from the empty mapping would have raised. *)
Lemma empty_info_is_skipped :
  service_account_info Demo.empty_info_block = Some ∅
  /\ get_credentials_from_service_account Demo.all_installed
       (Demo.empty_info_block, Demo.workstation)
     = (Ok Demo.gcloud_login, (Demo.empty_info_block, Demo.workstation))
  /\ get_credentials_from_service_account Demo.all_installed
       (Demo.empty_info_block, Demo.workstation)
     ≠ in_world Demo.all_installed Demo.empty_info_block
         (from_service_account_info Demo.all_installed ∅ [cloud_platform_scope]
            Demo.workstation).
Proof.
  split; [reflexivity|]. split; [vm_compute; reflexivity|].
  vm_compute. discriminate.
Qed.


(** Both sources given, the file present: the conflict is reported. *)
Lemma both_sources_rejected_witness :
  exists errors,
    construct Demo.all_installed Demo.both_sources_present Demo.workstation
    = (Raise (ValidationError errors), Demo.workstation)
    /\ (ROOT_KEY, only_one_source_msg) ∈ errors.
Proof.
  destruct (both_sources_rejected Demo.all_installed Demo.both_sources_present
              Demo.workstation (mkPath "~/key.json") Demo.demo_key
              eq_refl eq_refl) as (_ & Hconflict & _).
  apply (Hconflict (mkPath "/home/dev/key.json")); vm_compute; reflexivity.
Defined.

(** C2 as stated fails: with both sources given and the file missing,
    construction fails, but the only error reported is the invalid path.  The
    failed field never reaches [values], so the root validator sees no file
    and raises no conflict. *)
Lemma conflict_not_reported_for_missing_file :
  cfg_service_account_file Demo.both_sources_file_missing
    = Some (mkPath "~/absent.json")
  /\ cfg_service_account_info Demo.both_sources_file_missing = Some Demo.demo_key
  /\ construct Demo.all_installed Demo.both_sources_file_missing Demo.workstation
     = (Raise (ValidationError [("service_account_file", invalid_path_msg)]),
        Demo.workstation)
  /\ (ROOT_KEY, only_one_source_msg) ∉ [("service_account_file", invalid_path_msg)].
Proof.
  split; [reflexivity|]. split; [reflexivity|]. split.
  - vm_compute. reflexivity.
  - apply not_elem_of_cons. split; [discriminate | apply not_elem_of_nil].
Qed.

(** [infer_project] with the project [my-project]: rejected. *)
Lemma infer_with_project_rejected_witness :
  exists errors,
    construct Demo.all_installed Demo.infer_with_project Demo.workstation
    = (Raise (ValidationError errors), Demo.workstation)
    /\ (ROOT_KEY, cannot_infer_msg) ∈ errors.
Proof.
  destruct (infer_with_project_rejected Demo.all_installed
              Demo.infer_with_project Demo.workstation "my-project"
              eq_refl eq_refl) as (_ & Hconflict).
  - discriminate.
  - apply Hconflict. intros exc. discriminate.
Defined.

(** C3 as stated fails: [project] set to the empty string is falsy, so with
    [infer_project] true the validator raises nothing; construction succeeds
    and initialisation replaces the empty project by the inferred one. *)
Lemma empty_project_permits_inference :
  cfg_infer_project Demo.infer_with_empty_project = true
  /\ cfg_project Demo.infer_with_empty_project = Some ""
  /\ construct Demo.all_installed Demo.infer_with_empty_project Demo.workstation
     = (Ok {| service_account_file := None; service_account_info := None;
              project := Some "ambient-project"; infer_project := true |},
        Demo.workstation).
Proof.
  split; [reflexivity|]. split; [reflexivity|]. vm_compute. reflexivity.
Qed.



(** Two calls in a row on the workstation: the endpoint issues its first and
    then its second token, and the calls return exactly those. *)
Lemma access_token_is_fresh_witness :
  get_access_token Demo.all_installed (Demo.inline_block, Demo.workstation)
  = (Ok (Some "ya29.0"),
     (Demo.inline_block, Demo.after_refreshes Demo.workstation 1))
  /\ get_access_token Demo.all_installed
       (Demo.inline_block, Demo.after_refreshes Demo.workstation 1)
     = (Ok (Some "ya29.1"),
        (Demo.inline_block, Demo.after_refreshes Demo.workstation 2))
  /\ fst (get_access_token Demo.all_installed
            (Demo.inline_block, Demo.workstation))
     ≠ fst (get_access_token Demo.all_installed
              (Demo.inline_block, Demo.after_refreshes Demo.workstation 1)).
Proof.
  pose proof (access_token_is_fresh Demo.all_installed Demo.inline_block
                Demo.workstation
                tt Demo.workstation Demo.key_credentials Demo.workstation
                (Demo.with_token Demo.key_credentials "ya29.0")
                (Demo.after_refreshes Demo.workstation 1)
                tt (Demo.after_refreshes Demo.workstation 1)
                Demo.key_credentials (Demo.after_refreshes Demo.workstation 1)
                (Demo.with_token Demo.key_credentials "ya29.1")
                (Demo.after_refreshes Demo.workstation 2)) as H.
  destruct H as [H1 [H2 H3]]; try (vm_compute; reflexivity).
  split; [exact H1|]. split; [exact H2|].
  apply H3. discriminate.
Defined.

(** With no client package installed and a valid inline key, each factory
    raises the import error of its own extra. *)
Lemma missing_package_named_witness :
  get_cloud_storage_client Demo.none_installed None
    (Demo.inline_block, Demo.workstation)
  = (Raise (ImportError
       ("To use prefect_gcp.cloud_storage, install prefect-gcp with the " ++
        "'cloud_storage' extra: `pip install 'prefect_gcp[cloud_storage]'`")),
     (Demo.inline_block, Demo.workstation))
  /\ get_bigquery_client Demo.none_installed None (Some "EU")
       (Demo.inline_block, Demo.workstation)
     = (Raise (ImportError
          ("To use prefect_gcp.bigquery, install prefect-gcp with the " ++
           "'bigquery' extra: `pip install 'prefect_gcp[bigquery]'`")),
        (Demo.inline_block, Demo.workstation))
  /\ get_secret_manager_client Demo.none_installed
       (Demo.inline_block, Demo.workstation)
     = (Raise (ImportError
          ("To use prefect_gcp.secret_manager, install prefect-gcp with the " ++
           "'secret_manager' extra: `pip install 'prefect_gcp[secret_manager]'`")),
        (Demo.inline_block, Demo.workstation)).
Proof.
  assert (Hc : get_credentials_from_service_account Demo.none_installed
                 (Demo.inline_block, Demo.workstation)
               = (Ok Demo.key_credentials, (Demo.inline_block, Demo.workstation)))
    by (vm_compute; reflexivity).
  destruct (missing_package_named Demo.none_installed Demo.inline_block
              Demo.workstation Demo.workstation Demo.key_credentials Hc)
    as [Hs [Hb Hm]].
  split; [|split].
  - exact (Hs eq_refl None).
  - exact (Hb eq_refl None (Some "EU")).
  - exact (Hm eq_refl).
Defined.

(** C6 as stated fails: the factory resolves credentials before it touches
    the client class.  On a machine with no credentials at all the call
    raises the error of [google.auth.default()], not an [ImportError], even
    though the storage package is not installed. *)
Lemma credential_failure_comes_first :
  StorageClient Demo.none_installed = None
  /\ get_cloud_storage_client Demo.none_installed None
       (Demo.ambient_block, Demo.bare_machine)
     = (Raise (LibraryError "DefaultCredentialsError"
                 "Could not automatically determine credentials"),
        (Demo.ambient_block, Demo.bare_machine)).
Proof. split; [reflexivity|]. vm_compute. reflexivity. Qed.

(** An explicit project wins, a missing one falls back to the block, and the
    secret-manager client has no project. *)
Lemma client_project_selection_witness :
  get_cloud_storage_client Demo.all_installed (Some "other-project")
    (Demo.project_block, Demo.workstation)
  = (Ok {| Demo.client_credentials := Demo.key_credentials;
           Demo.client_project := Some "other-project";
           Demo.client_location := None |},
     (Demo.project_block, Demo.workstation))
  /\ get_bigquery_client Demo.all_installed None (Some "EU")
       (Demo.project_block, Demo.workstation)
     = (Ok {| Demo.client_credentials := Demo.key_credentials;
              Demo.client_project := Some "configured-project";
              Demo.client_location := Some "EU" |},
        (Demo.project_block, Demo.workstation))
  /\ get_secret_manager_client Demo.all_installed
       (Demo.project_block, Demo.workstation)
     = (Ok {| Demo.client_credentials := Demo.key_credentials;
              Demo.client_project := None;
              Demo.client_location := None |},
        (Demo.project_block, Demo.workstation)).
Proof.
  assert (Hc : get_credentials_from_service_account Demo.all_installed
                 (Demo.project_block, Demo.workstation)
               = (Ok Demo.key_credentials, (Demo.project_block, Demo.workstation)))
    by (vm_compute; reflexivity).
  destruct (client_project_selection Demo.all_installed Demo.project_block
              Demo.workstation Demo.workstation Demo.key_credentials Hc)
    as [Hs [_ [_ [Hb Hm]]]].
  split; [|split].
  - apply (Hs (fun c p => Demo.demo_client c p None)); [reflexivity | discriminate | reflexivity].
  - apply (Hb Demo.demo_client); [reflexivity | left; reflexivity | reflexivity].
  - apply (Hm (fun c => Demo.demo_client c None None)); reflexivity.
Defined.

(** C7 as stated fails: the empty string is a project argument that was
    provided, yet the client is bound to the project of the block. *)
Lemma empty_project_argument_is_not_bound :
  get_cloud_storage_client Demo.all_installed (Some "")
    (Demo.project_block, Demo.workstation)
  = (Ok {| Demo.client_credentials := Demo.key_credentials;
           Demo.client_project := Some "configured-project";
           Demo.client_location := None |},
     (Demo.project_block, Demo.workstation))
  /\ Some "configured-project" ≠ Some "".
Proof. split; [vm_compute; reflexivity | discriminate]. Qed.

(** The empty project argument on the workstation: both clients carry the
    project of the block. *)
Lemma empty_project_argument_falls_back_witness :
  get_cloud_storage_client Demo.all_installed (Some "")
    (Demo.project_block, Demo.workstation)
  = (Ok {| Demo.client_credentials := Demo.key_credentials;
           Demo.client_project := project Demo.project_block;
           Demo.client_location := None |},
     (Demo.project_block, Demo.workstation))
  /\ get_bigquery_client Demo.all_installed (Some "") None
       (Demo.project_block, Demo.workstation)
     = (Ok {| Demo.client_credentials := Demo.key_credentials;
              Demo.client_project := project Demo.project_block;
              Demo.client_location := None |},
        (Demo.project_block, Demo.workstation)).
Proof.
  assert (Hc : get_credentials_from_service_account Demo.all_installed
                 (Demo.project_block, Demo.workstation)
               = (Ok Demo.key_credentials, (Demo.project_block, Demo.workstation)))
    by (vm_compute; reflexivity).
  destruct (empty_project_argument_falls_back Demo.all_installed Demo.project_block
              Demo.workstation Demo.workstation Demo.key_credentials Hc)
    as [Hs Hb].
  split.
  - apply (Hs (fun c p => Demo.demo_client c p None)); reflexivity.
  - apply (Hb Demo.demo_client); reflexivity.
Defined.

(** Initialisation on the workstation: without [infer_project] nothing
    happens; with it, the project of the key is stored and the other fields
    stay. *)
Lemma fields_are_stable_witness :
  block_initialization Demo.all_installed (Demo.inline_block, Demo.workstation)
  = (Ok tt, (Demo.inline_block, Demo.workstation))
  /\ block_initialization Demo.all_installed
       (Demo.inferring_block, Demo.workstation)
     = (Ok tt,
        ({| service_account_file := None;
            service_account_info := Some Demo.demo_key;
            project := Some "key-project"; infer_project := true |},
         Demo.workstation)).
Proof.
  split.
  - destruct (fields_are_stable Demo.all_installed
                (Demo.inline_block, Demo.workstation))
      as [_ [_ [_ [_ [_ [Hoff _]]]]]].
    exact (Hoff eq_refl).
  - destruct (fields_are_stable Demo.all_installed
                (Demo.inferring_block, Demo.workstation))
      as [_ [_ [_ [_ [_ [_ Hon]]]]]].
    refine (eq_trans (Hon eq_refl) _). vm_compute. reflexivity.
Defined.

(** Initialisation at work: with [infer_project] set, the project of the key
    lands in [project] and nothing else moves. *)
Example initialization_infers_project :
  construct Demo.all_installed
    {| cfg_service_account_file := Some (mkPath "~/key.json");
       cfg_service_account_info := None;
       cfg_project := None; cfg_infer_project := true |} Demo.workstation
  = (Ok {| service_account_file := Some (mkPath "/home/dev/key.json");
           service_account_info := None;
           project := Some "key-project"; infer_project := true |},
     Demo.workstation).
Proof. vm_compute. reflexivity. Qed.

(** * Further properties of the module *)

Section Validators.
Context (E : Environment).

(** X1: a root validator never raises on [values] that lack one of the keys
    it reads (the case of a field that failed its own validation), and
    whenever it does not raise it returns [values] as it received them. *)
Theorem root_validators_tolerate_missing_keys (values : gmap string PyVal) :
  (values !! "service_account_info" = None \/
   values !! "service_account_file" = None ->
   _provide_one_service_account_source values = Ok values)
  /\ (values !! "infer_project" = None \/ values !! "project" = None ->
      _cannot_infer_project_with_specified_project values = Ok values)
  /\ (forall values', _provide_one_service_account_source values = Ok values' ->
      values' = values)
  /\ (forall values',
        _cannot_infer_project_with_specified_project values = Ok values' ->
        values' = values).
Proof.
  repeat split.
  - unfold _provide_one_service_account_source, dict_get.
    intros [H|H]; rewrite H; cbn [default from_option is_not_None andb];
      [reflexivity|].
    rewrite andb_false_r. reflexivity.
  - unfold _cannot_infer_project_with_specified_project, dict_get, py_and.
    intros [H|H]; rewrite H; cbn [default from_option]; [reflexivity|].
    destruct (truthy (default VNone (values !! "infer_project"))) eqn:Ht;
      [reflexivity | rewrite Ht; reflexivity].
  - intros values'. unfold _provide_one_service_account_source.
    destruct (_ && _); [discriminate | intros [= <-]; reflexivity].
  - intros values'. unfold _cannot_infer_project_with_specified_project.
    destruct (truthy _); [discriminate | intros [= <-]; reflexivity].
Qed.

(** What the file check returns when it returns. *)
Lemma check_ok_cases (o : option Path) (w : World E) (v : option Path) :
  _check_service_account_file E o w = Ok v ->
  (o = None /\ v = None)
  \/ (exists file p, o = Some file /\ v = Some p
                     /\ expanduser E file w = Ok p /\ path_exists E p w = Ok true).
Proof.
  destruct o as [file|].
  - intros Hc. destruct (check_file_ok_inv _ _ _ _ Hc) as (p & -> & Hx & Hp).
    right. exists file, p. auto.
  - intros [= <-]. left. auto.
Qed.

(** Validation without error, from the file check and back. *)
Lemma no_errors_give_check (cfg : Config) (w : World E) values :
  validate_model E cfg w = Ok (values, []) ->
  exists v,
    _check_service_account_file E (cfg_service_account_file cfg) w = Ok v
    /\ of_values values =
       {| service_account_file := v;
          service_account_info := cfg_service_account_info cfg;
          project := cfg_project cfg;
          infer_project := cfg_infer_project cfg |}
    /\ (v = None \/ cfg_service_account_info cfg = None)
    /\ (cfg_infer_project cfg = false \/ cfg_project cfg = None
        \/ cfg_project cfg = Some "").
Proof.
  intros Hv.
  destruct (_check_service_account_file E (cfg_service_account_file cfg) w)
    as [v|exc] eqn:Hc.
  - destruct (validate_model_checked E cfg w v Hc) as (values' & Hv' & Hblock).
    rewrite Hv in Hv'. injection Hv' as <- Hnil. symmetry in Hnil.
    apply app_eq_nil in Hnil as [Hsrc Hinf].
    exists v. split; [reflexivity|]. split; [exact Hblock|]. split.
    + destruct v, (cfg_service_account_info cfg); try discriminate Hsrc; auto.
    + destruct (cfg_infer_project cfg), (cfg_project cfg) as [[|a q]|];
        try discriminate Hinf; auto.
  - destruct (collected E exc) eqn:Hcol.
    + destruct (validate_model_collected E cfg w exc Hc Hcol) as (values' & Hv').
      rewrite Hv in Hv'. discriminate.
    + rewrite (validate_model_aborted E cfg w exc Hc Hcol) in Hv. discriminate.
Qed.

Lemma check_gives_no_errors (cfg : Config) (w : World E) v :
  _check_service_account_file E (cfg_service_account_file cfg) w = Ok v ->
  v = None \/ cfg_service_account_info cfg = None ->
  cfg_infer_project cfg = false \/ cfg_project cfg = None
    \/ cfg_project cfg = Some "" ->
  exists values,
    validate_model E cfg w = Ok (values, [])
    /\ of_values values =
       {| service_account_file := v;
          service_account_info := cfg_service_account_info cfg;
          project := cfg_project cfg;
          infer_project := cfg_infer_project cfg |}.
Proof.
  intros Hc Hone Hinf.
  destruct (validate_model_checked E cfg w v Hc) as (values & Hv & Hblock).
  exists values. split; [|exact Hblock]. rewrite Hv. do 2 f_equal.
  assert (Hsrc : match v, cfg_service_account_info cfg with
                 | Some _, Some _ => [(ROOT_KEY, only_one_source_msg)]
                 | _, _ => []
                 end = []).
  { destruct Hone as [-> | ->]; [reflexivity | destruct v; reflexivity]. }
  rewrite Hsrc.
  destruct Hinf as [-> | [-> | ->]]; [reflexivity | |];
    destruct (cfg_infer_project cfg); reflexivity.
Qed.

(** At most one source is given, in terms of what the file check returned. *)
Lemma one_source_checked (cfg : Config) (w : World E) v :
  _check_service_account_file E (cfg_service_account_file cfg) w = Ok v ->
  cfg_service_account_file cfg = None \/ cfg_service_account_info cfg = None <->
  v = None \/ cfg_service_account_info cfg = None.
Proof.
  intros Hc.
  destruct (check_ok_cases _ _ _ Hc) as [[Ho ->] | (file & p & Ho & -> & _)];
    rewrite Ho; split; intros [H|H]; auto; discriminate.
Qed.

(** X2: validation passes exactly when the three rules hold together: a
    given key file expands and exists once expanded, at most one of the two
    sources is given, and [infer_project] does not come with a non-empty
    [project]. *)
Theorem validation_passes_iff (cfg : Config) (w : World E) :
  (exists values, validate_model E cfg w = Ok (values, [])) <->
  (forall file, cfg_service_account_file cfg = Some file ->
     exists p, expanduser E file w = Ok p /\ path_exists E p w = Ok true)
  /\ (cfg_service_account_file cfg = None \/ cfg_service_account_info cfg = None)
  /\ (cfg_infer_project cfg = false \/ cfg_project cfg = None
      \/ cfg_project cfg = Some "").
Proof.
  split.
  - intros (values & Hv).
    destruct (no_errors_give_check _ _ _ Hv) as (v & Hc & _ & Hone & Hinf).
    split; [|split; [|exact Hinf]].
    + intros file Hf. rewrite Hf in Hc.
      destruct (check_file_ok_inv _ _ _ _ Hc) as (p & _ & Hx & Hp).
      exists p. auto.
    + apply (one_source_checked _ _ _ Hc). exact Hone.
  - intros (Hex & Hone & Hinf).
    assert (Hc : exists v,
              _check_service_account_file E (cfg_service_account_file cfg) w = Ok v).
    { destruct (cfg_service_account_file cfg) as [file|] eqn:Hf.
      - destruct (Hex file eq_refl) as (p & Hx & Hp).
        exists (Some p). apply check_file_found; assumption.
      - exists None. reflexivity. }
    destruct Hc as (v & Hc).
    destruct (check_gives_no_errors cfg w v Hc) as (values & Hv & _);
      [apply (one_source_checked _ _ _ Hc); exact Hone | exact Hinf |].
    exists values. exact Hv.
Qed.

(** Initialisation, switched off and on. *)
Lemma block_initialization_off (s : St E) :
  infer_project (fst s) = false -> block_initialization E s = (Ok tt, s).
Proof.
  intros Hf. unfold block_initialization, bind, get_self. cbn [fst snd].
  rewrite Hf. destruct s. reflexivity.
Qed.

Lemma block_initialization_on (s : St E) :
  infer_project (fst s) = true ->
  block_initialization E s =
  match get_credentials_from_service_account E s with
  | (Ok credentials, s') =>
      match project_id E credentials with
      | Ok value => (Ok tt, (with_project (fst s) value, snd s'))
      | Raise exc => (Raise exc, (fst s, snd s'))
      end
  | (Raise exc, s') => (Raise exc, (fst s, snd s'))
  end.
Proof.
  intros Ht. unfold block_initialization, bind, get_self. cbn [fst snd].
  rewrite Ht. cbn [truthy truthy_bool].
  pose proof (preserves_get_credentials E s) as Hp.
  destruct (get_credentials_from_service_account E s) as [[c|e] [self' w']];
    cbn [fst snd] in *; subst self'; [|reflexivity].
  unfold lift_res, set_project. destruct (project_id E c); reflexivity.
Qed.

Lemma construct_validated (cfg : Config) (w : World E) values :
  validate_model E cfg w = Ok (values, []) ->
  construct E cfg w =
  match block_initialization E (of_values values, w) with
  | (Ok _, (self, w')) => (Ok self, w')
  | (Raise exc, (_, w')) => (Raise exc, w')
  end.
Proof. intros Hv. unfold construct. rewrite Hv. reflexivity. Qed.

(** X3: a configuration that passes validation with [infer_project] false is
    constructed without any library call beyond the file check: the world is
    left as it was, no credentials are resolved, and the block holds the
    fields as given, the key file being the path the check returned (the
    expanded path). *)
Theorem construct_without_inference (cfg : Config) (w : World E)
    (v : option Path) :
  cfg_infer_project cfg = false ->
  _check_service_account_file E (cfg_service_account_file cfg) w = Ok v ->
  cfg_service_account_file cfg = None \/ cfg_service_account_info cfg = None ->
  construct E cfg w =
  (Ok {| service_account_file := v;
         service_account_info := cfg_service_account_info cfg;
         project := cfg_project cfg;
         infer_project := false |}, w).
Proof.
  intros Hoff Hc Hone.
  destruct (check_gives_no_errors cfg w v Hc) as (values & Hv & Hblock);
    [apply (one_source_checked _ _ _ Hc); exact Hone | auto |].
  rewrite (construct_validated _ _ _ Hv), Hblock, Hoff.
  rewrite block_initialization_off by reflexivity. reflexivity.
Qed.

(** X4: a configuration that passes validation with [infer_project] true is
    constructed by resolving credentials once, for the validated block.  When
    resolution and the read of [project_id] succeed, the block returned has
    that project id as its [project] (replacing an empty one, and [None] when
    the credentials carry none).  When either raises, construction fails with
    that exception and no block results. *)
Theorem construct_with_inference (cfg : Config) (w : World E)
    (v : option Path) :
  cfg_infer_project cfg = true ->
  cfg_project cfg = None \/ cfg_project cfg = Some "" ->
  _check_service_account_file E (cfg_service_account_file cfg) w = Ok v ->
  cfg_service_account_file cfg = None \/ cfg_service_account_info cfg = None ->
  construct E cfg w =
  match get_credentials_from_service_account E
          ({| service_account_file := v;
              service_account_info := cfg_service_account_info cfg;
              project := cfg_project cfg;
              infer_project := true |}, w) with
  | (Ok credentials, s') =>
      match project_id E credentials with
      | Ok value =>
          (Ok {| service_account_file := v;
                 service_account_info := cfg_service_account_info cfg;
                 project := value;
                 infer_project := true |}, snd s')
      | Raise exc => (Raise exc, snd s')
      end
  | (Raise exc, s') => (Raise exc, snd s')
  end.
Proof.
  intros Hon Hp Hc Hone.
  destruct (check_gives_no_errors cfg w v Hc) as (values & Hv & Hblock);
    [apply (one_source_checked _ _ _ Hc); exact Hone | auto |].
  rewrite (construct_validated _ _ _ Hv), Hblock, Hon.
  rewrite block_initialization_on by reflexivity.
  destruct (get_credentials_from_service_account E _) as [[c|e] [self' w']];
    cbn [fst snd]; [|reflexivity].
  destruct (project_id E c); reflexivity.
Qed.

Lemma block_initialization_keeps_sources (s : St E) :
  service_account_info (fst (snd (block_initialization E s)))
    = service_account_info (fst s)
  /\ infer_project (fst (snd (block_initialization E s)))
     = infer_project (fst s).
Proof.
  destruct (infer_project (fst s)) eqn:Hi.
  - rewrite block_initialization_on by exact Hi.
    destruct (get_credentials_from_service_account E s) as [[c|e] [self' w']];
      cbn [fst snd]; [|auto].
    destruct (project_id E c); cbn [fst snd with_project infer_project
      service_account_info]; auto.
  - rewrite block_initialization_off by exact Hi. auto.
Qed.

(** The source fields of a constructed block. *)
Lemma constructed_sources (cfg : Config) (w w' : World E) (self : GcpCredentials) :
  construct E cfg w = (Ok self, w') ->
  _check_service_account_file E (cfg_service_account_file cfg) w
    = Ok (service_account_file self)
  /\ service_account_info self = cfg_service_account_info cfg
  /\ infer_project self = cfg_infer_project cfg
  /\ (service_account_file self = None \/ service_account_info self = None)
  /\ (cfg_infer_project cfg = false \/ cfg_project cfg = None
      \/ cfg_project cfg = Some "").
Proof.
  intros Hok. destruct (construct_accepts _ _ _ _ _ Hok) as (values & Hv & ->).
  destruct (no_errors_give_check _ _ _ Hv) as (v & Hc & Hblock & Hone & Hinf).
  rewrite block_initialization_keeps_file.
  destruct (block_initialization_keeps_sources (of_values values, w)) as [-> ->].
  cbn [fst]. rewrite Hblock. cbn [service_account_file service_account_info
    infer_project]. auto.
Qed.

(** X5: what every constructed block satisfies.  It never holds both
    sources; its key file is what the file check returned, so if there is one
    it is the expanded form of the path given and existed when the block was
    built; [service_account_info] and [infer_project] are as given.  Built
    without [infer_project], it has the [project] given and the world was not
    touched; built with it, the [project] given was [None] or empty. *)
Theorem constructed_block_invariants (cfg : Config) (w w' : World E)
    (self : GcpCredentials) :
  construct E cfg w = (Ok self, w') ->
  (service_account_file self = None \/ service_account_info self = None)
  /\ _check_service_account_file E (cfg_service_account_file cfg) w
     = Ok (service_account_file self)
  /\ (forall p, service_account_file self = Some p ->
      path_exists E p w = Ok true
      /\ exists file, cfg_service_account_file cfg = Some file
                      /\ expanduser E file w = Ok p)
  /\ service_account_info self = cfg_service_account_info cfg
  /\ infer_project self = cfg_infer_project cfg
  /\ (cfg_infer_project cfg = false -> project self = cfg_project cfg /\ w' = w)
  /\ (cfg_infer_project cfg = true ->
      cfg_project cfg = None \/ cfg_project cfg = Some "").
Proof.
  intros Hok.
  destruct (constructed_sources _ _ _ _ Hok) as (Hc & Hinfo & Hflag & Hone & Hinf).
  split; [exact Hone|]. split; [exact Hc|]. split; [|split; [exact Hinfo|
    split; [exact Hflag|split]]].
  - intros p Hp. rewrite Hp in Hc.
    destruct (check_ok_cases _ _ _ Hc) as [[_ Hn] | (file & q & Hf & Hq & Hx & Hex)];
      [discriminate|].
    injection Hq as <-. split; [exact Hex|]. exists file. auto.
  - intros Hoff.
    assert (Hone' : cfg_service_account_file cfg = None
                    \/ cfg_service_account_info cfg = None).
    { apply (one_source_checked _ _ _ Hc). rewrite <- Hinfo. exact Hone. }
    destruct (check_gives_no_errors cfg w _ Hc) as (values & Hv & Hblock);
      [rewrite <- Hinfo; exact Hone | exact Hinf |].
    rewrite (construct_validated _ _ _ Hv), Hblock, Hoff in Hok.
    rewrite block_initialization_off in Hok by reflexivity.
    injection Hok as <- <-. split; reflexivity.
  - intros Hon. destruct Hinf as [Hinf|Hinf]; [congruence | exact Hinf].
Qed.

(** X6: validation errors are collected, not raised one at a time.  Take a
    key file whose path expands and can be tested, [infer_project], and a
    non-empty [project].  When the file does not exist the configuration is
    refused with both errors in one [ValidationError], the field error first;
    when it exists and [service_account_info] is given too, the two conflicts
    are reported together. *)
Theorem errors_are_collected (cfg : Config) (w : World E) (file expanded : Path)
    (found : bool) (p : string) :
  cfg_service_account_file cfg = Some file ->
  expanduser E file w = Ok expanded ->
  path_exists E expanded w = Ok found ->
  cfg_infer_project cfg = true ->
  cfg_project cfg = Some p ->
  p ≠ "" ->
  construct E cfg w =
  (Raise (ValidationError
     (if found then
        match cfg_service_account_info cfg with
        | Some _ => [(ROOT_KEY, only_one_source_msg); (ROOT_KEY, cannot_infer_msg)]
        | None => [(ROOT_KEY, cannot_infer_msg)]
        end
      else [("service_account_file", invalid_path_msg);
            (ROOT_KEY, cannot_infer_msg)])), w).
Proof.
  intros Hf Hx Hex Hon Hp Hne.
  assert (Ht : cfg_infer_project cfg && truthy (cfg_project cfg) = true).
  { rewrite Hon, Hp. cbn. apply truthy_str_true. exact Hne. }
  destruct found.
  - destruct (validate_model_checked E cfg w (Some expanded)) as (values & Hv & _).
    { rewrite Hf. apply check_file_found; assumption. }
    rewrite Ht in Hv. rewrite (construct_rejects _ _ _ _ _ Hv).
    + destruct (cfg_service_account_info cfg); reflexivity.
    + destruct (cfg_service_account_info cfg); discriminate.
  - destruct (validate_model_collected E cfg w (ValueError invalid_path_msg))
      as (values & Hv).
    { rewrite Hf. apply (check_file_absent _ _ _ expanded); assumption. }
    { reflexivity. }
    rewrite Ht in Hv. rewrite (construct_rejects _ _ _ _ _ Hv);
      [reflexivity | discriminate].
Qed.

(** X11: a constructed block keeps resolving from the source it was built
    with, in whatever world a later call finds.  Built from a key file, it
    loads the expanded path and never looks at ambient credentials; built
    from a non-empty inline key, it uses that key; built from neither (or
    from an empty mapping), it asks [google.auth.default()]. *)
Theorem constructed_block_resolution (cfg : Config) (w w' : World E)
    (self : GcpCredentials) :
  construct E cfg w = (Ok self, w') ->
  (forall file expanded later, cfg_service_account_file cfg = Some file ->
     expanduser E file w = Ok expanded ->
     get_credentials_from_service_account E (self, later) =
     in_world E self
       (from_service_account_file E expanded [cloud_platform_scope] later))
  /\ (forall info later, cfg_service_account_info cfg = Some info -> info ≠ ∅ ->
     get_credentials_from_service_account E (self, later) =
     in_world E self
       (from_service_account_info E info [cloud_platform_scope] later))
  /\ (forall later, cfg_service_account_file cfg = None ->
     cfg_service_account_info cfg = None \/ cfg_service_account_info cfg = Some ∅ ->
     get_credentials_from_service_account E (self, later) =
     in_world E self (map_res fst (fst (google_auth_default E later)),
                      snd (google_auth_default E later))).
Proof.
  intros Hok.
  destruct (constructed_sources _ _ _ _ Hok) as (Hc & Hinfo & _ & Hone & _).
  split; [|split].
  - intros file expanded later Hf Hx. rewrite Hf in Hc.
    destruct (check_file_ok_inv _ _ _ _ Hc) as (q & Hq & Hx' & _).
    rewrite Hx in Hx'. injection Hx' as <-.
    rewrite Hq in Hone. destruct Hone as [Hone|Hone]; [discriminate|].
    apply resolve_from_file; [left; exact Hone | exact Hq].
  - intros info later Hi Hne. apply resolve_from_info; [congruence | exact Hne].
  - intros later Hf Hi. rewrite Hf in Hc. injection Hc as Hc.
    apply resolve_from_default; [|symmetry; exact Hc].
    rewrite Hinfo. exact Hi.
Qed.

End Validators.

Section Outcomes.
Context (E : Environment).

Lemma help_msg_passes {A} key (func : M (St E) A) s e s' :
  func s = (Raise e, s') -> isinstance E e "NameError" = false ->
  _raise_help_msg E key func s = (Raise e, s').
Proof. intros Hf Hne. unfold _raise_help_msg. rewrite Hf, Hne. reflexivity. Qed.

Lemma help_msg_translates {A} key (func : M (St E) A) s e s' :
  func s = (Raise e, s') -> isinstance E e "NameError" = true ->
  _raise_help_msg E key func s = (Raise (ImportError (help_msg key)), s').
Proof. intros Hf Hn. unfold _raise_help_msg. rewrite Hf, Hn. reflexivity. Qed.

Lemma help_msg_translates_name {A} key (func : M (St E) A) s name s' :
  func s = (Raise (NameError name), s') ->
  _raise_help_msg E key func s = (Raise (ImportError (help_msg key)), s').
Proof. intros Hf. apply (help_msg_translates _ _ _ _ _ Hf). reflexivity. Qed.

Lemma call_raise {A} (op : World E -> Res A * World E) self w e w' :
  op w = (Raise e, w') -> call E op (self, w) = (Raise e, (self, w')).
Proof. unfold call, in_world. cbn [fst snd]. intros ->. reflexivity. Qed.

(** The body of each factory once credentials are resolved and the class
    is installed: what remains is the call of the class. *)
Lemma storage_body self w c w' cls project_arg :
  get_credentials_from_service_account E (self, w) = (Ok c, (self, w')) ->
  StorageClient E = Some cls ->
  (credentials <- get_credentials_from_service_account E;;
   self <- get_self E;;
   let project_arg := py_or project_arg (project self) in
   cls <- global_name "StorageClient" (StorageClient E);;
   call E (cls credentials project_arg)) (self, w)
  = call E (cls c (py_or project_arg (project self))) (self, w').
Proof.
  intros Hc Hcls. rewrite (bind_ok _ _ _ _ _ Hc), Hcls. reflexivity.
Qed.

Lemma bigquery_body self w c w' cls project_arg location :
  get_credentials_from_service_account E (self, w) = (Ok c, (self, w')) ->
  BigQueryClient E = Some cls ->
  (credentials <- get_credentials_from_service_account E;;
   self <- get_self E;;
   let project_arg := py_or project_arg (project self) in
   cls <- global_name "BigQueryClient" (BigQueryClient E);;
   call E (cls credentials project_arg location)) (self, w)
  = call E (cls c (py_or project_arg (project self)) location) (self, w').
Proof.
  intros Hc Hcls. rewrite (bind_ok _ _ _ _ _ Hc), Hcls. reflexivity.
Qed.

Lemma secret_manager_body self w c w' cls :
  get_credentials_from_service_account E (self, w) = (Ok c, (self, w')) ->
  SecretManagerServiceClient E = Some cls ->
  (credentials <- get_credentials_from_service_account E;;
   cls <- global_name "SecretManagerServiceClient" (SecretManagerServiceClient E);;
   call E (cls credentials)) (self, w)
  = call E (cls c) (self, w').
Proof.
  intros Hc Hcls. rewrite (bind_ok _ _ _ _ _ Hc), Hcls. reflexivity.
Qed.

(** X7: a failure of credential resolution is the failure of the factory.
    When resolution raises an exception that [except NameError] does not
    catch (neither a [NameError] nor an instance of a subclass of it), each
    of the three factories raises that same exception in that same state,
    whether or not its client package is installed, and no client class is
    called. *)
Theorem resolution_errors_propagate (self : GcpCredentials) (w : World E)
    (exc : PyExc) (s' : St E) :
  get_credentials_from_service_account E (self, w) = (Raise exc, s') ->
  isinstance E exc "NameError" = false ->
  (forall project_arg,
     get_cloud_storage_client E project_arg (self, w) = (Raise exc, s'))
  /\ (forall project_arg location,
     get_bigquery_client E project_arg location (self, w) = (Raise exc, s'))
  /\ get_secret_manager_client E (self, w) = (Raise exc, s').
Proof.
  intros Hc Hne. split; [|split]; intros;
    apply help_msg_passes; auto; apply bind_raise; exact Hc.
Qed.

(** X8: a failure of the client class is the failure of the factory.  With
    credentials resolved and the package installed, an exception the class
    raises when called leaves the factory unchanged, provided
    [except NameError] does not catch it (it is neither a [NameError] nor an
    instance of a subclass of it); the project handed to the class is still
    [project or self.project]. *)
Theorem constructor_errors_propagate (self : GcpCredentials) (w w' wf : World E)
    (c : Credentials E) (exc : PyExc) :
  get_credentials_from_service_account E (self, w) = (Ok c, (self, w')) ->
  isinstance E exc "NameError" = false ->
  (forall cls project_arg, StorageClient E = Some cls ->
     cls c (py_or project_arg (project self)) w' = (Raise exc, wf) ->
     get_cloud_storage_client E project_arg (self, w) = (Raise exc, (self, wf)))
  /\ (forall cls project_arg location, BigQueryClient E = Some cls ->
     cls c (py_or project_arg (project self)) location w' = (Raise exc, wf) ->
     get_bigquery_client E project_arg location (self, w)
     = (Raise exc, (self, wf)))
  /\ (forall cls, SecretManagerServiceClient E = Some cls ->
     cls c w' = (Raise exc, wf) ->
     get_secret_manager_client E (self, w) = (Raise exc, (self, wf))).
Proof.
  intros Hc Hne. split; [|split].
  - intros cls project_arg Hcls Hnew. apply help_msg_passes; auto.
    rewrite (storage_body _ _ _ _ _ _ Hc Hcls). apply call_raise. exact Hnew.
  - intros cls project_arg location Hcls Hnew. apply help_msg_passes; auto.
    rewrite (bigquery_body _ _ _ _ _ _ _ Hc Hcls). apply call_raise. exact Hnew.
  - intros cls Hcls Hnew. apply help_msg_passes; auto.
    rewrite (secret_manager_body _ _ _ _ _ Hc Hcls). apply call_raise. exact Hnew.
Qed.

(** X9: the decorator wraps the whole factory, so it rewrites every
    [NameError], not only the one of a missing import.  A [NameError] raised
    inside credential resolution, or inside the client class of a package
    that is installed, comes out as the [ImportError] that asks to install
    the extra. *)
Theorem any_name_error_becomes_install_hint (self : GcpCredentials)
    (w : World E) (name : string) :
  (forall s', get_credentials_from_service_account E (self, w)
              = (Raise (NameError name), s') ->
     (forall project_arg,
        get_cloud_storage_client E project_arg (self, w)
        = (Raise (ImportError (help_msg "cloud_storage")), s'))
     /\ (forall project_arg location,
        get_bigquery_client E project_arg location (self, w)
        = (Raise (ImportError (help_msg "bigquery")), s'))
     /\ get_secret_manager_client E (self, w)
        = (Raise (ImportError (help_msg "secret_manager")), s'))
  /\ (forall c w' wf, get_credentials_from_service_account E (self, w)
                      = (Ok c, (self, w')) ->
     (forall cls project_arg, StorageClient E = Some cls ->
        cls c (py_or project_arg (project self)) w' = (Raise (NameError name), wf) ->
        get_cloud_storage_client E project_arg (self, w)
        = (Raise (ImportError (help_msg "cloud_storage")), (self, wf)))
     /\ (forall cls project_arg location, BigQueryClient E = Some cls ->
        cls c (py_or project_arg (project self)) location w'
        = (Raise (NameError name), wf) ->
        get_bigquery_client E project_arg location (self, w)
        = (Raise (ImportError (help_msg "bigquery")), (self, wf)))
     /\ (forall cls, SecretManagerServiceClient E = Some cls ->
        cls c w' = (Raise (NameError name), wf) ->
        get_secret_manager_client E (self, w)
        = (Raise (ImportError (help_msg "secret_manager")), (self, wf)))).
Proof.
  split.
  - intros s' Hc. split; [|split]; intros;
      apply (help_msg_translates_name _ _ _ name); apply bind_raise; exact Hc.
  - intros c w' wf Hc. split; [|split].
    + intros cls project_arg Hcls Hnew. apply (help_msg_translates_name _ _ _ name).
      rewrite (storage_body _ _ _ _ _ _ Hc Hcls). apply call_raise. exact Hnew.
    + intros cls project_arg location Hcls Hnew.
      apply (help_msg_translates_name _ _ _ name).
      rewrite (bigquery_body _ _ _ _ _ _ _ Hc Hcls). apply call_raise. exact Hnew.
    + intros cls Hcls Hnew. apply (help_msg_translates_name _ _ _ name).
      rewrite (secret_manager_body _ _ _ _ _ Hc Hcls). apply call_raise. exact Hnew.
Qed.

(** X10: the token minter stops at the first step that raises, with that
    exception.  A failing transport request means no credentials are
    resolved; failing resolution means nothing is refreshed; a refresh that
    is rejected is what the caller sees.  In each case the world is the one
    the failing step left. *)
Theorem access_token_failures (self : GcpCredentials) (w : World E)
    (exc : PyExc) :
  (forall w1, Request E w = (Raise exc, w1) ->
     get_access_token E (self, w) = (Raise exc, (self, w1)))
  /\ (forall rq w1 w2, Request E w = (Ok rq, w1) ->
     get_credentials_from_service_account E (self, w1) = (Raise exc, (self, w2)) ->
     get_access_token E (self, w) = (Raise exc, (self, w2)))
  /\ (forall rq w1 c w2 w3, Request E w = (Ok rq, w1) ->
     get_credentials_from_service_account E (self, w1) = (Ok c, (self, w2)) ->
     refresh E c rq w2 = (Raise exc, w3) ->
     get_access_token E (self, w) = (Raise exc, (self, w3))).
Proof.
  split; [|split].
  - intros w1 Hq. unfold get_access_token.
    apply bind_raise. apply call_raise. exact Hq.
  - intros rq w1 w2 Hq Hc. unfold get_access_token.
    rewrite (bind_ok _ _ _ _ _ (call_ok E _ self _ _ _ Hq)).
    apply bind_raise. exact Hc.
  - intros rq w1 c w2 w3 Hq Hc Hr. unfold get_access_token.
    rewrite (bind_ok _ _ _ _ _ (call_ok E _ self _ _ _ Hq)).
    rewrite (bind_ok _ _ _ _ _ Hc).
    apply bind_raise. unfold run_sync_in_worker_thread.
    apply call_raise. exact Hr.
Qed.

End Outcomes.

Section Independence.
Context (E : Environment).

Lemma same_outcome_refl_call {A} (op : World E -> Res A * World E) self1 self2 w :
  same_outcome E (call E op (self1, w)) (call E op (self2, w)).
Proof. split; reflexivity. Qed.

(** Sequencing two computations that each ignore the block. *)
Lemma same_outcome_bind {A B} (m : M (St E) A) (k : A -> M (St E) B)
    self1 self2 w :
  preserves_block E m ->
  same_outcome E (m (self1, w)) (m (self2, w)) ->
  (forall a later, same_outcome E (k a (self1, later)) (k a (self2, later))) ->
  same_outcome E (bind m k (self1, w)) (bind m k (self2, w)).
Proof.
  intros Hp [Hr Hw] Hk. unfold bind.
  pose proof (Hp (self1, w)) as H1. pose proof (Hp (self2, w)) as H2.
  destruct (m (self1, w)) as [r1 [b1 w1]], (m (self2, w)) as [r2 [b2 w2]].
  cbn [fst snd] in *. subst.
  destruct r2 as [a|e]; [apply Hk | split; reflexivity].
Qed.

Lemma same_outcome_help_msg {A} key (func : M (St E) A) s1 s2 :
  same_outcome E (func s1) (func s2) ->
  same_outcome E (_raise_help_msg E key func s1) (_raise_help_msg E key func s2).
Proof.
  intros [Hr Hw]. unfold _raise_help_msg.
  destruct (func s1) as [r1 [b1 w1]], (func s2) as [r2 [b2 w2]].
  cbn [fst snd] in *. subst.
  destruct r2 as [a|exc]; [split; reflexivity|].
  destruct (isinstance E exc "NameError"); split; reflexivity.
Qed.

Lemma resolve_same_sources self1 self2 w :
  service_account_info self1 = service_account_info self2 ->
  service_account_file self1 = service_account_file self2 ->
  same_outcome E (get_credentials_from_service_account E (self1, w))
    (get_credentials_from_service_account E (self2, w)).
Proof.
  intros Hi Hf. unfold get_credentials_from_service_account, bind, get_self.
  cbn [fst snd]. rewrite Hi, Hf. unfold if_truthy.
  destruct (service_account_info self2) as [info|];
    [destruct (truthy info); [split; reflexivity|]|];
    (destruct (service_account_file self2) as [file|];
     [destruct (truthy file); [split; reflexivity|]|]);
    unfold call, in_world; cbn [fst snd];
    destruct (google_auth_default E w) as [[found|e] w']; split; reflexivity.
Qed.

(** X12: [project] and [infer_project] play no part in authentication.  Two
    blocks with the same [service_account_info] and [service_account_file]
    get the same outcome, and leave the same world, from credential
    resolution, from the token minter, from the secret-manager factory, and
    from the storage and bigquery factories when these are called with an
    explicit non-empty project. *)
Theorem only_the_sources_matter (self1 self2 : GcpCredentials) (w : World E) :
  service_account_info self1 = service_account_info self2 ->
  service_account_file self1 = service_account_file self2 ->
  same_outcome E (get_credentials_from_service_account E (self1, w))
    (get_credentials_from_service_account E (self2, w))
  /\ same_outcome E (get_access_token E (self1, w)) (get_access_token E (self2, w))
  /\ same_outcome E (get_secret_manager_client E (self1, w))
       (get_secret_manager_client E (self2, w))
  /\ (forall p, p ≠ "" ->
      same_outcome E (get_cloud_storage_client E (Some p) (self1, w))
        (get_cloud_storage_client E (Some p) (self2, w)))
  /\ (forall p location, p ≠ "" ->
      same_outcome E (get_bigquery_client E (Some p) location (self1, w))
        (get_bigquery_client E (Some p) location (self2, w))).
Proof.
  intros Hi Hf.
  assert (Hres : forall later,
            same_outcome E (get_credentials_from_service_account E (self1, later))
              (get_credentials_from_service_account E (self2, later)))
    by (intros later; apply resolve_same_sources; assumption).
  split; [apply Hres|]. split; [|split; [|split]].
  - unfold get_access_token, run_sync_in_worker_thread.
    apply same_outcome_bind;
      [apply preserves_call | apply same_outcome_refl_call |].
    intros request w1.
    apply same_outcome_bind; [apply preserves_get_credentials | apply Hres |].
    intros credentials w2.
    apply same_outcome_bind;
      [apply preserves_call | apply same_outcome_refl_call |].
    intros refreshed w3. split; reflexivity.
  - unfold get_secret_manager_client. apply same_outcome_help_msg.
    apply same_outcome_bind; [apply preserves_get_credentials | apply Hres |].
    intros credentials w1.
    destruct (SecretManagerServiceClient E) as [cls|]; split; reflexivity.
  - intros p Hp. unfold get_cloud_storage_client. apply same_outcome_help_msg.
    apply same_outcome_bind; [apply preserves_get_credentials | apply Hres |].
    intros credentials w1. unfold bind at 1 3, get_self. cbn [fst snd].
    rewrite !(py_or_explicit _ _ Hp).
    destruct (StorageClient E) as [cls|]; split; reflexivity.
  - intros p location Hp. unfold get_bigquery_client. apply same_outcome_help_msg.
    apply same_outcome_bind; [apply preserves_get_credentials | apply Hres |].
    intros credentials w1. unfold bind at 1 3, get_self. cbn [fst snd].
    rewrite !(py_or_explicit _ _ Hp).
    destruct (BigQueryClient E) as [cls|]; split; reflexivity.
Qed.

End Independence.

(** ** The install hint *)

Lemma string_length_app (s t : string) :
  String.length (String.append s t) = String.length s + String.length t.
Proof.
  induction s as [|a s IH]; [reflexivity|].
  change (S (String.length (String.append s t))
          = S (String.length s + String.length t)).
  rewrite IH. reflexivity.
Qed.

Lemma string_app_same_length (s1 s2 t1 t2 : string) :
  String.length s1 = String.length s2 ->
  String.append s1 t1 = String.append s2 t2 -> s1 = s2.
Proof.
  revert s2. induction s1 as [|a s1 IH]; intros [|b s2] Hlen Heq;
    try discriminate Hlen; [reflexivity|].
  change (String a (String.append s1 t1) = String b (String.append s2 t2)) in Heq.
  injection Heq as -> Heq. injection Hlen as Hlen.
  f_equal. apply IH; assumption.
Qed.

Lemma string_app_inv_head (s t1 t2 : string) :
  String.append s t1 = String.append s t2 -> t1 = t2.
Proof.
  induction s as [|a s IH]; intros Heq; [exact Heq|].
  change (String a (String.append s t1) = String a (String.append s t2)) in Heq.
  injection Heq as Heq. apply IH. exact Heq.
Qed.

(** X13: the install hint tells the extras apart: two different keys never
    give the same message, so the message of a factory identifies the one
    extra it asks for. *)
Theorem help_msg_identifies_extra (key1 key2 : string) :
  key1 ≠ key2 -> help_msg key1 ≠ help_msg key2.
Proof.
  intros Hne Heq. apply Hne.
  assert (Hlen : String.length key1 = String.length key2).
  { apply (f_equal String.length) in Heq. unfold help_msg in Heq.
    rewrite !string_length_app in Heq. cbn [String.length] in Heq. lia. }
  unfold help_msg in Heq. apply string_app_inv_head in Heq.
  exact (string_app_same_length _ _ _ _ Hlen Heq).
Qed.

(** ** The further properties on the workstation *)

(** A key file that is there, no inference: the block is built in place. *)
Lemma construct_without_inference_witness :
  construct Demo.all_installed Demo.file_present Demo.workstation
  = (Ok Demo.file_present_block, Demo.workstation).
Proof.
  refine (eq_trans (construct_without_inference Demo.all_installed
                      Demo.file_present Demo.workstation
                      (Some (mkPath "/home/dev/key.json")) eq_refl _ _) _).
  - vm_compute. reflexivity.
  - right. reflexivity.
  - vm_compute. reflexivity.
Defined.

(** The same key file with inference: the empty project given is replaced by
    the project of the key. *)
Lemma construct_with_inference_witness :
  construct Demo.all_installed Demo.infer_from_file Demo.workstation
  = (Ok Demo.inferred_block, Demo.workstation).
Proof.
  refine (eq_trans (construct_with_inference Demo.all_installed
                      Demo.infer_from_file Demo.workstation
                      (Some (mkPath "/home/dev/key.json")) eq_refl _ _ _) _).
  - right. reflexivity.
  - vm_compute. reflexivity.
  - right. reflexivity.
  - vm_compute. reflexivity.
Defined.

Lemma inferred_block_constructed :
  construct Demo.all_installed Demo.infer_from_file Demo.workstation
  = (Ok Demo.inferred_block, Demo.workstation).
Proof. vm_compute. reflexivity. Qed.

(** The block built from the key file has one source, and its file is
    there. *)
Lemma constructed_block_invariants_witness :
  (service_account_file Demo.inferred_block = None
   \/ service_account_info Demo.inferred_block = None)
  /\ (forall p, service_account_file Demo.inferred_block = Some p ->
      path_exists Demo.all_installed p Demo.workstation = Ok true
      /\ exists file,
           cfg_service_account_file Demo.infer_from_file = Some file
           /\ expanduser Demo.all_installed file Demo.workstation = Ok p)
  /\ infer_project Demo.inferred_block = true.
Proof.
  destruct (constructed_block_invariants Demo.all_installed Demo.infer_from_file
              Demo.workstation Demo.workstation Demo.inferred_block
              inferred_block_constructed)
    as (Hone & _ & Hex & _ & Hflag & _).
  split; [exact Hone|]. split; [exact Hex | exact Hflag].
Defined.

(** A missing key file and a project given with [infer_project]: both
    mistakes are reported at once. *)
Lemma errors_are_collected_witness :
  construct Demo.all_installed Demo.two_mistakes Demo.workstation
  = (Raise (ValidationError
       [("service_account_file", invalid_path_msg);
        (ROOT_KEY, cannot_infer_msg)]), Demo.workstation).
Proof.
  refine (eq_trans (errors_are_collected Demo.all_installed Demo.two_mistakes
                      Demo.workstation (mkPath "~/absent.json")
                      (mkPath "/home/dev/absent.json") false "my-project"
                      eq_refl _ _ eq_refl eq_refl _) _).
  - vm_compute. reflexivity.
  - vm_compute. reflexivity.
  - discriminate.
  - reflexivity.
Defined.

Lemma no_credentials_anywhere :
  get_credentials_from_service_account Demo.all_installed
    (Demo.ambient_block, Demo.bare_machine)
  = (Raise (LibraryError "DefaultCredentialsError"
              "Could not automatically determine credentials"),
     (Demo.ambient_block, Demo.bare_machine)).
Proof. vm_compute. reflexivity. Qed.

(** On a machine without credentials every factory fails with the error of
    [google.auth.default()], the packages being installed. *)
Lemma resolution_errors_propagate_witness :
  get_cloud_storage_client Demo.all_installed (Some "my-project")
    (Demo.ambient_block, Demo.bare_machine)
  = (Raise (LibraryError "DefaultCredentialsError"
              "Could not automatically determine credentials"),
     (Demo.ambient_block, Demo.bare_machine))
  /\ get_secret_manager_client Demo.all_installed
       (Demo.ambient_block, Demo.bare_machine)
     = (Raise (LibraryError "DefaultCredentialsError"
                 "Could not automatically determine credentials"),
        (Demo.ambient_block, Demo.bare_machine)).
Proof.
  destruct (resolution_errors_propagate Demo.all_installed Demo.ambient_block
              Demo.bare_machine _ _ no_credentials_anywhere)
    as (Hs & _ & Hm).
  - vm_compute. reflexivity.
  - split; [apply Hs | exact Hm].
Defined.

Lemma inline_key_resolves (exc : PyExc) :
  get_credentials_from_service_account (Demo.raising_clients exc)
    (Demo.project_block, Demo.workstation)
  = (Ok Demo.key_credentials, (Demo.project_block, Demo.workstation)).
Proof. vm_compute. reflexivity. Qed.

(** A client class that refuses the call: the factory raises what the class
    raised. *)
Lemma constructor_errors_propagate_witness :
  get_bigquery_client
    (Demo.raising_clients (LibraryError "Forbidden" "access denied"))
    None (Some "EU") (Demo.project_block, Demo.workstation)
  = (Raise (LibraryError "Forbidden" "access denied"),
     (Demo.project_block, Demo.workstation)).
Proof.
  destruct (constructor_errors_propagate
              (Demo.raising_clients (LibraryError "Forbidden" "access denied"))
              Demo.project_block Demo.workstation Demo.workstation
              Demo.workstation Demo.key_credentials
              (LibraryError "Forbidden" "access denied")
              (inline_key_resolves _))
    as (_ & Hb & _).
  - vm_compute. reflexivity.
  - apply (Hb (fun _ _ _ w => (Raise (LibraryError "Forbidden" "access denied"), w)));
      reflexivity.
Defined.

(** A [NameError] from inside an installed client class is reported as a
    missing extra. *)
Lemma any_name_error_becomes_install_hint_witness :
  get_cloud_storage_client (Demo.raising_clients (NameError "helper")) None
    (Demo.project_block, Demo.workstation)
  = (Raise (ImportError
       ("To use prefect_gcp.cloud_storage, install prefect-gcp with the " ++
        "'cloud_storage' extra: `pip install 'prefect_gcp[cloud_storage]'`")),
     (Demo.project_block, Demo.workstation)).
Proof.
  destruct (any_name_error_becomes_install_hint
              (Demo.raising_clients (NameError "helper"))
              Demo.project_block Demo.workstation "helper") as [_ Hcls].
  destruct (Hcls Demo.key_credentials Demo.workstation Demo.workstation
              (inline_key_resolves _)) as (Hs & _).
  apply (Hs (fun _ _ w => (Raise (NameError "helper"), w))); reflexivity.
Defined.

(** No credentials: the token minter fails with the resolution error, and
    nothing was refreshed (the endpoint has issued no token). *)
Lemma access_token_failures_witness :
  get_access_token Demo.all_installed (Demo.ambient_block, Demo.bare_machine)
  = (Raise (LibraryError "DefaultCredentialsError"
              "Could not automatically determine credentials"),
     (Demo.ambient_block, Demo.bare_machine)).
Proof.
  destruct (access_token_failures Demo.all_installed Demo.ambient_block
              Demo.bare_machine
              (LibraryError "DefaultCredentialsError"
                 "Could not automatically determine credentials"))
    as (_ & Hres & _).
  apply (Hres tt Demo.bare_machine Demo.bare_machine);
    [reflexivity | exact no_credentials_anywhere].
Defined.

(** The block built from [~/key.json] loads [/home/dev/key.json] in a later
    world too. *)
Lemma constructed_block_resolution_witness :
  get_credentials_from_service_account Demo.all_installed
    (Demo.inferred_block, Demo.after_refreshes Demo.workstation 3)
  = (Ok Demo.key_credentials,
     (Demo.inferred_block, Demo.after_refreshes Demo.workstation 3)).
Proof.
  destruct (constructed_block_resolution Demo.all_installed Demo.infer_from_file
              Demo.workstation Demo.workstation Demo.inferred_block
              inferred_block_constructed) as (Hfile & _).
  refine (eq_trans (Hfile (mkPath "~/key.json") (mkPath "/home/dev/key.json")
                      (Demo.after_refreshes Demo.workstation 3)
                      eq_refl eq_refl) _).
  vm_compute. reflexivity.
Defined.

(** The same inline key with and without a project: the same token. *)
Lemma only_the_sources_matter_witness :
  same_outcome Demo.all_installed
    (get_access_token Demo.all_installed (Demo.inline_block, Demo.workstation))
    (get_access_token Demo.all_installed (Demo.project_block, Demo.workstation))
  /\ same_outcome Demo.all_installed
       (get_cloud_storage_client Demo.all_installed (Some "other-project")
          (Demo.inline_block, Demo.workstation))
       (get_cloud_storage_client Demo.all_installed (Some "other-project")
          (Demo.project_block, Demo.workstation)).
Proof.
  destruct (only_the_sources_matter Demo.all_installed Demo.inline_block
              Demo.project_block Demo.workstation eq_refl eq_refl)
    as (_ & Htoken & _ & Hstorage & _).
  split; [exact Htoken|]. apply Hstorage. discriminate.
Defined.

(** The hints of the storage and bigquery factories differ. *)
Lemma help_msg_identifies_extra_witness :
  "cloud_storage" ≠ "bigquery"
  /\ help_msg "cloud_storage" ≠ help_msg "bigquery".
Proof.
  split; [discriminate|].
  apply (help_msg_identifies_extra "cloud_storage" "bigquery"). discriminate.
Defined.

(** An [UnboundLocalError] is a [NameError] for [except NameError]: raised
    inside an installed client class it is rewritten to the install hint
    like any other. *)
Example unbound_local_error_is_rewritten :
  get_cloud_storage_client
    (Demo.raising_clients (LibraryError "UnboundLocalError" "local variable"))
    None (Demo.project_block, Demo.workstation)
  = (Raise (ImportError (help_msg "cloud_storage")),
     (Demo.project_block, Demo.workstation)).
Proof. vm_compute. reflexivity. Qed.
